(** * Execution and session core of the control panel

    A shallow embedding of the path sandbox ([routers_fixed/files.py]), the
    job runner and schedule registry ([routers/python_deployer.py]) and the
    terminal session manager ([routers/terminal.py]).

    A Python [str] is a Rocq [string] whose characters stand for code points
    below 256.  The operating system is an explicit [World] value that the
    endpoints thread through; an endpoint returns either a response or the
    [HTTPException] it raises. *)

From Stdlib Require Import ZArith Ascii DecimalString.
From stdpp Require Import base option list strings gmap.

(** ** Python string primitives *)

Module Py.

(** [s.startswith(p)] *)
Definition startswith (s p : string) : bool := String.prefix p s.

(** [sub in s] *)
Fixpoint contains (sub s : string) : bool :=
  String.prefix sub s ||
  match s with
  | EmptyString => false
  | String _ s' => contains sub s'
  end.

(** [sep.join(l)] *)
Definition join (sep : string) (l : list string) : string := String.concat sep l.

(** Line boundaries of [str.splitlines] below code point 256:
    LF, VT, FF, CR, FS, GS, RS and NEL. *)
Definition is_linebreak (c : ascii) : bool :=
  match N_of_ascii c with
  | 10 | 11 | 12 | 13 | 28 | 29 | 30 | 133 => true
  | _ => false
  end%N.

Definition is_cr (c : ascii) : bool := (N_of_ascii c =? 13)%N.
Definition is_lf (c : ascii) : bool := (N_of_ascii c =? 10)%N.

(** [s.splitlines()]: the lines of [s] without their terminators; CR LF is
    one terminator, and a terminator at the very end opens no new line. *)
Fixpoint splitlines (s : string) : list string :=
  match s with
  | EmptyString => []
  | String c r =>
      if is_linebreak c then
        EmptyString ::
          match r with
          | EmptyString => []
          | String c2 r2 =>
              if is_cr c && is_lf c2 then splitlines r2 else splitlines r
          end
      else
        match splitlines r with
        | [] => [String c EmptyString]
        | l :: ls => String c l :: ls
        end
  end.

(** [s.split(sep)] for a one-character separator. *)
Fixpoint split (sep : ascii) (s : string) : list string :=
  match s with
  | EmptyString => [EmptyString]
  | String c r =>
      if Ascii.eqb c sep then EmptyString :: split sep r
      else
        match split sep r with
        | [] => [String c EmptyString]
        | l :: ls => String c l :: ls
        end
  end.

(** Whitespace of [str.isspace] below code point 256. *)
Definition is_space (c : ascii) : bool :=
  match N_of_ascii c with
  | 9 | 10 | 11 | 12 | 13 | 28 | 29 | 30 | 31 | 32 | 133 | 160 => true
  | _ => false
  end%N.

(** [s.split()]: the maximal runs of non-whitespace characters. *)
Fixpoint words_aux (cur : string) (s : string) : list string :=
  match s with
  | EmptyString => if String.eqb cur "" then [] else [cur]
  | String c r =>
      if is_space c then
        if String.eqb cur "" then words_aux "" r else cur :: words_aux "" r
      else words_aux (cur +:+ String c "") r
  end.

Definition split_ws (s : string) : list string := words_aux "" s.

(** [str(n)] for an [int]. *)
Definition str_of_Z (z : Z) : string := NilZero.string_of_int (Z.to_int z).

(** [s.rfind(c)] for a one-character needle, as the pieces around the last
    occurrence: [Some (s[:i], s[i+1:])], or [None] when [c] does not occur. *)
Fixpoint rpartition (c : ascii) (s : string) : option (string * string) :=
  match s with
  | EmptyString => None
  | String a r =>
      match rpartition c r with
      | Some (before, after) => Some (String a before, after)
      | None => if Ascii.eqb a c then Some (EmptyString, r) else None
      end
  end.

(** [s.rstrip(c)] for one character. *)
Fixpoint rstrip (c : ascii) (s : string) : string :=
  match s with
  | EmptyString => EmptyString
  | String a r =>
      let r' := rstrip c r in
      if String.eqb r' "" && Ascii.eqb a c then EmptyString else String a r'
  end.

(** [s.lstrip(c)] for one character. *)
Fixpoint lstrip (c : ascii) (s : string) : string :=
  match s with
  | EmptyString => EmptyString
  | String a r => if Ascii.eqb a c then lstrip c r else s
  end.

Fixpoint all_char (c : ascii) (s : string) : bool :=
  match s with
  | EmptyString => true
  | String a r => Ascii.eqb a c && all_char c r
  end.

Fixpoint drop (n : nat) (s : string) : string :=
  match n, s with
  | O, _ => s
  | S n', String _ r => drop n' r
  | S _, EmptyString => EmptyString
  end.

(** [s.replace(old, new)]; the fuel is the length of [s], which bounds the
    number of steps. *)
Fixpoint replace_aux (fuel : nat) (old new s : string) : string :=
  match fuel with
  | O => s
  | S fuel' =>
      match s with
      | EmptyString => if String.eqb old "" then new else EmptyString
      | String a r =>
          if String.eqb old "" then new +:+ String a (replace_aux fuel' old new r)
          else if String.prefix old s
          then new +:+ replace_aux fuel' old new (drop (String.length old) s)
          else String a (replace_aux fuel' old new r)
      end
  end.

Definition replace (s old new : string) : string :=
  replace_aux (S (String.length s)) old new s.

End Py.

(** ** [posixpath] *)

Module PosixPath.

Definition sep : string := "/".

Definition isabs (s : string) : bool := Py.startswith s sep.

(** [os.path.join(a, b)] *)
Definition join (a b : string) : string :=
  if Py.startswith b sep then b
  else if String.eqb a "" || Py.startswith (String.rev a) sep then a +:+ b
  else a +:+ sep +:+ b.

Definition join3 (a b c : string) : string := join (join a b) c.

(** POSIX allows one or two initial slashes and treats three or more as one. *)
Definition initial_slashes (path : string) : nat :=
  if Py.startswith path sep then
    if Py.startswith path "//" && negb (Py.startswith path "///") then 2 else 1
  else 0.

(** The component loop of [normpath]; [new_comps] is in path order. *)
Fixpoint collapse (init : nat) (comps new_comps : list string) : list string :=
  match comps with
  | [] => new_comps
  | comp :: rest =>
      if String.eqb comp "" || String.eqb comp "." then collapse init rest new_comps
      else if negb (String.eqb comp "..")
              || (Nat.eqb init 0 && Nat.eqb (length new_comps) 0)
              || (negb (Nat.eqb (length new_comps) 0)
                  && String.eqb (List.last new_comps "") "..")
      then collapse init rest (new_comps ++ [comp])
      else if negb (Nat.eqb (length new_comps) 0)
      then collapse init rest (removelast new_comps)
      else collapse init rest new_comps
  end.

Fixpoint slashes (n : nat) : string :=
  match n with O => "" | S n' => String "/" (slashes n') end.

(** [os.path.normpath(path)] *)
Definition normpath (path : string) : string :=
  if String.eqb path "" then "."
  else
    let init := initial_slashes path in
    let comps := collapse init (Py.split "/" path) [] in
    let p := slashes init +:+ Py.join sep comps in
    if String.eqb p "" then "." else p.

(** [os.path.abspath(path)] in a process whose working directory is [cwd]. *)
Definition abspath (cwd path : string) : string :=
  normpath (if isabs path then path else join cwd path).

(** [os.path.basename(p)] *)
Definition basename (p : string) : string :=
  match Py.rpartition "/" p with
  | Some (_, tail) => tail
  | None => p
  end.

(** [os.path.dirname(p)] *)
Definition dirname (p : string) : string :=
  match Py.rpartition "/" p with
  | Some (before, _) =>
      let head := before +:+ sep in
      if Py.all_char "/" head then head else Py.rstrip "/" head
  | None => ""
  end.

(** The scan of [genericpath._splitext] over the leading dots of the file
    name: is there a character other than a dot before the last dot? *)
Definition splitext_root (p : string) : string :=
  let name := basename p in
  match Py.rpartition "." name with
  | Some (stem, _) =>
      if Py.all_char "." stem then p
      else
        match Py.rpartition "." p with
        | Some (root, _) => root
        | None => p
        end
  | None => p
  end.

End PosixPath.

(** ** Sandbox: [routers_fixed/files.py] *)

Section Sandbox.

(** [os.getcwd()] of the serving process. *)
Variable cwd : string.

(** [is_safe_path(path, user_dir)] *)
Definition is_safe_path (path user_dir : string) : bool :=
  let abs_path := PosixPath.abspath cwd path in
  let abs_user_dir := PosixPath.abspath cwd user_dir in
  Py.startswith abs_path abs_user_dir.

End Sandbox.

(** ** The host and its mutable state *)

(** What one end point can raise.  [HTTPException] is the framework's error
    response; the other two stand for [asyncio.TimeoutError] and for any other
    Python exception, named by its text. *)
Inductive exn : Type :=
  | HTTPException (status_code : nat) (detail : string)
  | TimeoutError
  | PyError (msg : string).

Definition isinstance_HTTPException (e : exn) : bool :=
  match e with HTTPException _ _ => true | _ => false end.

Inductive node : Type :=
  | File (content : string)
  | Dir.

(** A child process as [asyncio.create_subprocess_exec] hands it back:
    [completes_within t] tells whether [communicate()] returns before a timer
    of [t] seconds fires. *)
Record Process : Type := {
  pid : nat;
  returncode : Z;
  stdout : string;
  stderr : string;
  completes_within : Z -> bool
}.

Inductive UserRole : Type := ADMIN | USER.

Record User : Type := { username : string; role : UserRole }.

(** The parts of the machine that the end points read but never change. *)
Record Host : Type := {
  os_name : string;
  cwd : string;
  sys_executable : string;
  BASE_DIR : string;
  (** [create_subprocess_exec] of an argument vector in a directory *)
  spawn : list string -> string -> exn + Process;
  (** [crontab <file>]: the diagnostic when the file is refused *)
  crontab_refuses : string -> option string;
  (** [str(e)] *)
  str_exn : exn -> string
}.

(** The parts they change.  Files are keyed by normalised absolute path and
    there are no symbolic links; [crontab] is [None] while [crontab -l] exits
    non-zero; [active_sessions] is the module-level dictionary of
    [terminal.py], in insertion order; [killed] and [terminated] list the
    processes sent SIGKILL and SIGTERM; [activity] is what [log_activity]
    recorded. *)
Record World : Type := {
  fs : gmap string node;
  crontab : option string;
  active_sessions : list (string * Process);
  killed : list nat;
  terminated : list nat;
  activity : list (string * string * string * string)
}.

Definition set_fs (f : gmap string node) (w : World) : World :=
  {| fs := f; crontab := crontab w; active_sessions := active_sessions w;
     killed := killed w; terminated := terminated w; activity := activity w |}.
Definition set_crontab (c : option string) (w : World) : World :=
  {| fs := fs w; crontab := c; active_sessions := active_sessions w;
     killed := killed w; terminated := terminated w; activity := activity w |}.
Definition set_active_sessions (a : list (string * Process)) (w : World) : World :=
  {| fs := fs w; crontab := crontab w; active_sessions := a;
     killed := killed w; terminated := terminated w; activity := activity w |}.
Definition add_killed (p : nat) (w : World) : World :=
  {| fs := fs w; crontab := crontab w; active_sessions := active_sessions w;
     killed := killed w ++ [p]; terminated := terminated w; activity := activity w |}.
Definition add_terminated (p : nat) (w : World) : World :=
  {| fs := fs w; crontab := crontab w; active_sessions := active_sessions w;
     killed := killed w; terminated := terminated w ++ [p]; activity := activity w |}.
Definition add_activity (a : string * string * string * string) (w : World) : World :=
  {| fs := fs w; crontab := crontab w; active_sessions := active_sessions w;
     killed := killed w; terminated := terminated w; activity := activity w ++ [a] |}.

(** ** Python dictionaries with string keys, in insertion order *)

Section Dict.
Context {V : Type}.

(** [d.get(k)] *)
Fixpoint dict_get (k : string) (d : list (string * V)) : option V :=
  match d with
  | [] => None
  | (k', v) :: rest => if String.eqb k' k then Some v else dict_get k rest
  end.

(** [d[k] = v] *)
Fixpoint dict_set (k : string) (v : V) (d : list (string * V)) : list (string * V) :=
  match d with
  | [] => [(k, v)]
  | (k', v') :: rest =>
      if String.eqb k' k then (k', v) :: rest else (k', v') :: dict_set k v rest
  end.

(** [del d[k]] *)
Fixpoint dict_del (k : string) (d : list (string * V)) : list (string * V) :=
  match d with
  | [] => []
  | (k', v') :: rest =>
      if String.eqb k' k then rest else (k', v') :: dict_del k rest
  end.

(** [list(d.keys())] *)
Definition dict_keys (d : list (string * V)) : list string := fst <$> d.
End Dict.

(** ** A state and exception monad for the end points *)

Definition M (A : Type) : Type := World -> World * (exn + A).

Definition ret {A} (a : A) : M A := fun w => (w, inr a).
Definition raise {A} (e : exn) : M A := fun w => (w, inl e).
Definition bind {A B} (m : M A) (k : A -> M B) : M B :=
  fun w => match m w with
           | (w', inr a) => k a w'
           | (w', inl e) => (w', inl e)
           end.
Definition gets {A} (f : World -> A) : M A := fun w => (w, inr (f w)).
Definition modify (f : World -> World) : M unit := fun w => (f w, inr tt).

(** [try: m except Exception as e: h e] *)
Definition try_except {A} (m : M A) (h : exn -> M A) : M A :=
  fun w => match m w with
           | (w', inl e) => h e w'
           | r => r
           end.

(** [try: m except asyncio.TimeoutError: h] *)
Definition except_TimeoutError {A} (m : M A) (h : M A) : M A :=
  try_except m (fun e => match e with TimeoutError => h | _ => raise e end).

Definition lift {A} (r : exn + A) : M A := fun w => (w, r).

Notation "'let*' x ':=' m 'in' k" := (bind m (fun x => k))
  (at level 10, x name, m at level 100, k at level 200).
Notation "m ';;' k" := (bind m (fun _ => k))
  (at level 100, k at level 200, right associativity).

Definition when_ (b : bool) (e : exn) : M unit :=
  if b then raise e else ret tt.

(** ** UTF-8 on code points below 256 *)

Definition utf8_encode_char (c : ascii) : string :=
  let n := N_of_ascii c in
  if (n <? 128)%N then String c ""
  else if (n <? 192)%N then String (ascii_of_N 194) (String c "")
  else String (ascii_of_N 195) (String (ascii_of_N (n - 64)) "").

(** [s.encode()] *)
Fixpoint encode (s : string) : string :=
  match s with
  | EmptyString => EmptyString
  | String c r => utf8_encode_char c +:+ encode r
  end.

(** [b.decode()]: [None] stands for [UnicodeDecodeError], and also for text
    that leaves the modelled range of code points. *)
Fixpoint decode (b : string) : option string :=
  match b with
  | EmptyString => Some EmptyString
  | String c r =>
      let n := N_of_ascii c in
      if (n <? 128)%N then String c <$> decode r
      else
        match r with
        | String c2 r2 =>
            let n2 := N_of_ascii c2 in
            if (128 <=? n2)%N && (n2 <? 192)%N then
              if (n =? 194)%N then String c2 <$> decode r2
              else if (n =? 195)%N then String (ascii_of_N (n2 + 64)) <$> decode r2
              else None
            else None
        | EmptyString => None
        end
  end.

Definition decode_or_raise (b : string) : M string :=
  match decode b with
  | Some s => ret s
  | None => raise (PyError "UnicodeDecodeError")
  end.

(** ** Regular expressions of the listing *)

Definition LF : string := String "010" "".

(** The longest prefix of [s] that [.*] can cover: up to the first LF. *)
Fixpoint upto_lf (s : string) : string :=
  match s with
  | EmptyString => EmptyString
  | String c r => if Py.is_lf c then EmptyString else String c (upto_lf r)
  end.

(** [s[:j]] for the last [j] at which [b] occurs in [s]. *)
Fixpoint before_last (b s : string) : option string :=
  match s with
  | EmptyString => if String.prefix b "" then Some EmptyString else None
  | String c r =>
      match before_last b r with
      | Some g => Some (String c g)
      | None => if String.prefix b s then Some EmptyString else None
      end
  end.

(** Group 1 of [re.search] for a literal [a], a greedy dot-star group and a
    literal [b]: the leftmost start, and from there the longest group. *)
Fixpoint re_search_between (a b s : string) : option string :=
  match
    (if String.prefix a s
     then before_last b (upto_lf (Py.drop (String.length a) s))
     else None)
  with
  | Some g => Some g
  | None =>
      match s with
      | EmptyString => None
      | String _ r => re_search_between a b r
      end
  end.

(** Group 1 of the marker pattern: the text between the first ["# "] and the
    last [" - managed by control-panel"] after it. *)
Definition re_marker (line : string) : option string :=
  re_search_between "# " " - managed by control-panel" line.

(** Group 1 of the script pattern: from after the first ["python "] to the
    last [".py"] after it, that suffix included. *)
Definition re_python (line : string) : option string :=
  (fun g => g +:+ ".py") <$> re_search_between "python " ".py" line.

(** ** Job runner and schedule registry: [routers/python_deployer.py] *)

Record InstallResponse : Type := {
  inst_message : string;
  inst_script_path : string;
  inst_requirements : list string;
  inst_output : string
}.

Record RunResponse : Type := {
  run_message : string;
  run_returncode : Z;
  run_stdout : string;
  run_stderr : string;
  run_script_path : string
}.

Record ScheduleResponse : Type := {
  sched_message : string;
  sched_name : string;
  sched_script_path : string;
  sched_cron_expression : string;
  sched_wrapper_path : string
}.

Record ScheduledScript : Type := {
  name : string;
  cron_expression : string;
  script_path : string
}.

Record UnscheduleResponse : Type := {
  unsched_message : string;
  unsched_name : string
}.

(** [f"# {name} - managed by control-panel"] *)
Definition marker (name : string) : string :=
  "# " +:+ name +:+ " - managed by control-panel".

(** [f"{cron_expression} {wrapper_path} # {name} - managed by control-panel\n"] *)
Definition cron_entry (cron_expression wrapper_path name : string) : string :=
  cron_expression +:+ " " +:+ wrapper_path +:+ " " +:+ marker name +:+ LF.

Definition not_marked (name : string) (line : string) : bool :=
  negb (Py.contains (marker name) line).

(** The loop of [unschedule_script] over the lines of the table. *)
Fixpoint drop_marked (name : string) (crontab_lines : list string)
    (found : bool) (new_crontab_lines : list string) : bool * list string :=
  match crontab_lines with
  | [] => (found, new_crontab_lines)
  | line :: rest =>
      if Py.contains (marker name) line
      then drop_marked name rest true new_crontab_lines
      else drop_marked name rest found (new_crontab_lines ++ [line])
  end.

(** One line of the listing. *)
Definition parse_line (line : string) : list ScheduledScript :=
  match re_marker line with
  | Some n =>
      [ {| name := n;
           cron_expression := Py.join " " (take 5 (Py.split_ws line));
           script_path := default "Unknown" (re_python line) |} ]
  | None => []
  end.

Section Deployer.

Variable host : Host.

Definition path_key (p : string) : string := PosixPath.abspath (cwd host) p.

(** [os.path.exists(p)] *)
Definition path_exists (p : string) (w : World) : bool :=
  bool_decide (is_Some (fs w !! path_key p)).

(** [os.makedirs(p, exist_ok=True)]; intermediate directories are not
    tracked. *)
Definition makedirs (p : string) : M unit :=
  fun w =>
    match fs w !! path_key p with
    | None => (set_fs (<[path_key p := Dir]> (fs w)) w, inr tt)
    | Some Dir => (w, inr tt)
    | Some (File _) => (w, inl (PyError "FileExistsError"))
    end.

(** [async with aiofiles.open(p, 'w') as f: await f.write(content)] *)
Definition write_file (p content : string) : M unit :=
  fun w =>
    match fs w !! path_key p with
    | Some Dir => (w, inl (PyError "IsADirectoryError"))
    | _ => (set_fs (<[path_key p := File content]> (fs w)) w, inr tt)
    end.

(** [log_activity]: it swallows its own failures. *)
Definition log_activity (user action ip details : string) : M unit :=
  modify (add_activity (user, action, ip, details)).

(** [get_user_dir(username)] *)
Definition get_user_dir (username : string) : M string :=
  let user_dir := PosixPath.join (BASE_DIR host) username in
  makedirs user_dir ;;
  ret user_dir.

Definition posix : bool := String.eqb (os_name host) "posix".

(** Lines 151 to 164 and their copies in the other end points: the script
    must lie in the user's directory and exist. *)
Definition locate_script (current_user : User) (script : string) : M (string * string) :=
  let* user_dir := get_user_dir (username current_user) in
  let full_script_path := PosixPath.join user_dir script in
  when_ (negb (is_safe_path (cwd host) full_script_path user_dir))
        (HTTPException 403 "Access denied to this path") ;;
  let* found := gets (path_exists full_script_path) in
  when_ (negb found) (HTTPException 404 "Script not found") ;;
  ret (user_dir, full_script_path).

(** [install_requirements] *)
Definition install_requirements (requirements : list string) (client_host : string)
    (current_user : User) (script : string) : M InstallResponse :=
  let* located := locate_script current_user script in
  let full_script_path := located.2 in
  let script_dir := PosixPath.dirname full_script_path in
  let venv_path := PosixPath.join script_dir ".venv" in
  let* venv := gets (path_exists venv_path) in
  when_ (negb venv)
        (HTTPException 400 "Virtual environment not found. Please create it first.") ;;
  let req_file := PosixPath.join script_dir "requirements.txt" in
  write_file req_file (Py.join LF requirements) ;;
  let pip_path :=
    if String.eqb (os_name host) "nt"
    then PosixPath.join3 venv_path "Scripts" "pip.exe"
    else PosixPath.join3 venv_path "bin" "pip" in
  let* pip := gets (path_exists pip_path) in
  when_ (negb pip) (HTTPException 500 "pip not found in the virtual environment") ;;
  try_except
    (let* process := lift (spawn host [pip_path; "install"; "-r"; req_file] "") in
     (if negb (returncode process =? 0)%Z
      then
        let* err := decode_or_raise (stderr process) in
        raise (HTTPException 500 ("Failed to install requirements: " +:+ err))
      else ret tt) ;;
     log_activity (username current_user) "install_requirements" client_host
                  ("Installed requirements for: " +:+ script) ;;
     let* out := decode_or_raise (stdout process) in
     ret {| inst_message := "Requirements installed successfully";
            inst_script_path := script;
            inst_requirements := requirements;
            inst_output := out |})
    (fun e =>
       raise (HTTPException 500 ("Failed to install requirements: " +:+ str_exn host e))).

(** [await asyncio.wait_for(process.communicate(), timeout)] *)
Definition wait_for_communicate (process : Process) (timeout : Z) : M (string * string) :=
  if completes_within process timeout
  then ret (stdout process, stderr process)
  else raise TimeoutError.

(** [process.kill()] *)
Definition kill (process : Process) : M unit := modify (add_killed (pid process)).

(** [run_script]; the temporary file it creates and unlinks holds nothing
    and is left out. *)
Definition run_script (script : string) (client_host : string) (current_user : User)
    (args : list string) (timeout : Z) : M RunResponse :=
  let* located := locate_script current_user script in
  let full_script_path := located.2 in
  let script_dir := PosixPath.dirname full_script_path in
  let venv_path := PosixPath.join script_dir ".venv" in
  let* venv := gets (path_exists venv_path) in
  let python_path :=
    if venv then
      if String.eqb (os_name host) "nt"
      then PosixPath.join3 venv_path "Scripts" "python.exe"
      else PosixPath.join3 venv_path "bin" "python"
    else sys_executable host in
  try_except
    (let* process := lift (spawn host (python_path :: full_script_path :: args) script_dir) in
     let* captured :=
       except_TimeoutError
         (wait_for_communicate process timeout)
         (kill process ;;
          raise (HTTPException 408
                   ("Script execution timed out after " +:+ Py.str_of_Z timeout
                    +:+ " seconds"))) in
     log_activity (username current_user) "run_script" client_host
                  ("Ran script: " +:+ script +:+ " with args: " +:+ Py.join " " args) ;;
     let* out := decode_or_raise captured.1 in
     let* err := decode_or_raise captured.2 in
     ret {| run_message :=
              if (returncode process =? 0)%Z
              then "Script executed successfully" else "Script execution failed";
            run_returncode := returncode process;
            run_stdout := out;
            run_stderr := err;
            run_script_path := script |})
    (fun e => raise (HTTPException 500 ("Failed to run script: " +:+ str_exn host e))).

(** [crontab -l]: the table, or the empty text when there is none. *)
Definition read_crontab : M string := gets (fun w => default "" (crontab w)).

(** Lines 425 to 444 and 597 to 615: write the text to a temporary file and
    install that file as the new table. *)
Definition install_crontab (new_crontab : string) : M unit :=
  match crontab_refuses host new_crontab with
  | Some diagnostic =>
      raise (HTTPException 500 ("Failed to install crontab: " +:+ diagnostic))
  | None => modify (set_crontab (Some new_crontab))
  end.

Definition export_line (kv : string * string) : string :=
  "export " +:+ kv.1 +:+ "=" +:+ String "034" (kv.2 +:+ String "034" LF).

(** [schedule_script]; file modes are not tracked, so [os.chmod] leaves no
    trace, and the temporary file is part of [install_crontab]. *)
Definition schedule_script (nm cron : string) (environment_vars : list (string * string))
    (client_host : string) (current_user : User) (script : string) : M ScheduleResponse :=
  let* located := locate_script current_user script in
  let user_dir := located.1 in
  let full_script_path := located.2 in
  let cron_parts := Py.split_ws cron in
  when_ (negb (length cron_parts =? 5)%nat)
        (HTTPException 400
           "Invalid cron expression. Must have 5 parts: minute, hour, day of month, month, day of week") ;;
  when_ (negb posix)
        (HTTPException 400 "Script scheduling is only supported on Linux systems") ;;
  let script_dir := PosixPath.dirname full_script_path in
  let venv_path := PosixPath.join script_dir ".venv" in
  let* venv := gets (path_exists venv_path) in
  let python_path :=
    if venv then PosixPath.join3 venv_path "bin" "python" else sys_executable host in
  let wrapper_name :=
    PosixPath.splitext_root (PosixPath.basename full_script_path) +:+ "_wrapper.sh" in
  let wrapper_path := PosixPath.join script_dir wrapper_name in
  let wrapper_content :=
    "#!/bin/bash" +:+ LF +:+ LF
    +:+ String.concat "" (export_line <$> environment_vars)
    +:+ (if venv
         then "source " +:+ PosixPath.join3 venv_path "bin" "activate" +:+ LF
         else "")
    +:+ LF +:+ python_path +:+ " " +:+ full_script_path +:+ " > "
    +:+ PosixPath.join script_dir "cron_output.log" +:+ " 2>&1" +:+ LF in
  write_file wrapper_path wrapper_content ;;
  let* current_crontab := read_crontab in
  let entry := cron_entry cron wrapper_path nm in
  let crontab_lines := Py.splitlines current_crontab in
  let new_crontab_lines := List.filter (not_marked nm) crontab_lines ++ [entry] in
  let new_crontab := Py.join LF new_crontab_lines in
  try_except
    (install_crontab new_crontab ;;
     log_activity (username current_user) "schedule_script" client_host
                  ("Scheduled script: " +:+ script +:+ " with cron: " +:+ cron) ;;
     ret {| sched_message := "Script scheduled successfully";
            sched_name := nm;
            sched_script_path := script;
            sched_cron_expression := cron;
            sched_wrapper_path :=
              Py.lstrip "/" (Py.replace (Py.replace wrapper_path user_dir "") "\" "/") |})
    (fun e =>
       if isinstance_HTTPException e then raise e
       else raise (HTTPException 500 ("Failed to schedule script: " +:+ str_exn host e))).

(** [list_scheduled_scripts] *)
Definition list_scheduled_scripts (client_host : string) (current_user : User)
    : M (list ScheduledScript) :=
  when_ (negb posix)
        (HTTPException 400 "Script scheduling is only supported on Linux systems") ;;
  try_except
    (let* table := gets crontab in
     match table with
     | None => ret []
     | Some current_crontab =>
         let scheduled_scripts := flat_map parse_line (Py.splitlines current_crontab) in
         log_activity (username current_user) "list_scheduled_scripts" client_host
                      "Listed scheduled scripts" ;;
         ret scheduled_scripts
     end)
    (fun e =>
       raise (HTTPException 500 ("Failed to list scheduled scripts: " +:+ str_exn host e))).

(** [unschedule_script] *)
Definition unschedule_script (nm : string) (client_host : string) (current_user : User)
    : M UnscheduleResponse :=
  when_ (negb posix)
        (HTTPException 400 "Script scheduling is only supported on Linux systems") ;;
  try_except
    (let* table := gets crontab in
     match table with
     | None => raise (HTTPException 404 "No crontab found")
     | Some current_crontab =>
         let crontab_lines := Py.splitlines current_crontab in
         let scanned := drop_marked nm crontab_lines false [] in
         when_ (negb scanned.1)
               (HTTPException 404
                  ("No scheduled script with name '" +:+ nm +:+ "' found")) ;;
         let new_crontab := Py.join LF scanned.2 in
         install_crontab new_crontab ;;
         log_activity (username current_user) "unschedule_script" client_host
                      ("Unscheduled script: " +:+ nm) ;;
         ret {| unsched_message := "Script unscheduled successfully";
                unsched_name := nm |}
     end)
    (fun e =>
       if isinstance_HTTPException e then raise e
       else raise (HTTPException 500 ("Failed to unschedule script: " +:+ str_exn host e))).

End Deployer.

(** ** Session manager: [routers/terminal.py] *)

(** One pass of the loop body of [write_to_process]: what the frame makes
    the loop write to the standard input of the shell, if anything. *)
Definition frame_bytes (message : string) : option string :=
  if Py.startswith message "__RESIZE:" then
    match Py.split ":" message with
    | [_; cols; rows] => None
    | _ => Some (encode message)
    end
  else Some (encode message).

(** [write_to_process]: [frames] are the texts that [receive_text] returns
    before the channel closes; the result is what the standard input of the
    shell has received, one chunk per [write]. *)
Fixpoint write_to_process (frames : list string) (stdin : list string) : list string :=
  match frames with
  | [] => stdin
  | message :: rest =>
      match frame_bytes message with
      | None => write_to_process rest stdin
      | Some chunk => write_to_process rest (stdin ++ [chunk])
      end
  end.

Definition is_admin (u : User) : bool :=
  match role u with ADMIN => true | USER => false end.

Section Terminal.

Variable host : Host.

(** [f"{username}_{id(websocket)}"] *)
Definition session_id_of (user : string) (websocket_id : Z) : string :=
  user +:+ "_" +:+ Py.str_of_Z websocket_id.

(** Lines 55 to 75 of [terminal_websocket], reached once the token has been
    checked against [user]: spawn the shell and register the session. *)
Definition open_session (user : string) (websocket_id : Z) (client_ip : string) : M string :=
  let session_id := session_id_of user websocket_id in
  let user_dir := "/home/" +:+ user in
  makedirs host user_dir ;;
  let* process := lift (spawn host ["bash"] user_dir) in
  modify (fun w => set_active_sessions (dict_set session_id process (active_sessions w)) w) ;;
  log_activity user "terminal_connect" client_ip
               ("Terminal session started: " +:+ session_id) ;;
  ret session_id.

(** [session_id.split("_")[0]] inside its [try]. *)
Definition presumed_owner (session_id : string) : M string :=
  match Py.split "_" session_id with
  | first :: _ => ret first
  | [] => raise (HTTPException 400 "Invalid session ID format")
  end.

(** [kill_terminal_session] *)
Definition kill_terminal_session (session_id client_host : string) (current_user : User)
    : M string :=
  let* owner := presumed_owner session_id in
  when_ (negb (String.eqb (username current_user) owner) && negb (is_admin current_user))
        (HTTPException 403 "Not authorized to kill this session") ;;
  let* sessions := gets active_sessions in
  match dict_get session_id sessions with
  | Some process =>
      modify (add_terminated (pid process)) ;;
      modify (fun w => set_active_sessions (dict_del session_id (active_sessions w)) w) ;;
      log_activity (username current_user) "kill_terminal" client_host
                   ("Killed terminal session: " +:+ session_id) ;;
      ret "Terminal session terminated"
  | None => raise (HTTPException 404 "Terminal session not found")
  end.

(** [list_terminal_sessions] *)
Definition list_terminal_sessions (client_host : string) (current_user : User)
    : M (list string) :=
  let* registry := gets active_sessions in
  let sessions :=
    if is_admin current_user then dict_keys registry
    else List.filter (fun session_id =>
                        Py.startswith session_id (username current_user +:+ "_"))
                     (dict_keys registry) in
  log_activity (username current_user) "list_terminal_sessions" client_host
               "Listed terminal sessions" ;;
  ret sessions.

End Terminal.

(** ** Vocabulary of the statements *)

Fixpoint linebreak_free (s : string) : bool :=
  match s with
  | EmptyString => true
  | String c r => negb (Py.is_linebreak c) && linebreak_free r
  end.

(** The lines of a table that carry the marker of [nm]. *)
Definition marked_lines (nm : string) (table : option string) : list string :=
  List.filter (Py.contains (marker nm)) (Py.splitlines (default "" table)).

(** The lines of a table that an operation on [nm] has to keep. *)
Definition kept_lines (nm : string) (table : option string) : list string :=
  List.filter (not_marked nm) (Py.splitlines (default "" table)).

(** The paths that the end points derive from the user and the script. *)
Definition user_dir_of (host : Host) (u : User) : string :=
  PosixPath.join (BASE_DIR host) (username u).
Definition full_script_path_of (host : Host) (u : User) (script : string) : string :=
  PosixPath.join (user_dir_of host u) script.
Definition script_dir_of (host : Host) (u : User) (script : string) : string :=
  PosixPath.dirname (full_script_path_of host u script).
Definition req_file_of (host : Host) (u : User) (script : string) : string :=
  PosixPath.join (script_dir_of host u script) "requirements.txt".
Definition wrapper_path_of (host : Host) (u : User) (script : string) : string :=
  PosixPath.join (script_dir_of host u script)
    (PosixPath.splitext_root (PosixPath.basename (full_script_path_of host u script))
     +:+ "_wrapper.sh").

Definition pip_path_of (host : Host) (u : User) (script : string) : string :=
  let venv_path := PosixPath.join (script_dir_of host u script) ".venv" in
  if String.eqb (os_name host) "nt"
  then PosixPath.join3 venv_path "Scripts" "pip.exe"
  else PosixPath.join3 venv_path "bin" "pip".

(** The line a schedule entry occupies in the table. *)
Definition entry_line (host : Host) (nm cron : string) (u : User) (script : string) : string :=
  cron +:+ " " +:+ wrapper_path_of host u script +:+ " " +:+ marker nm.

(** [s[:s.find(c)]], or all of [s] when [c] does not occur. *)
Fixpoint before_first (c : ascii) (s : string) : string :=
  match s with
  | EmptyString => EmptyString
  | String a r => if Ascii.eqb a c then EmptyString else String a (before_first c r)
  end.

Fixpoint occurs (c : ascii) (s : string) : bool :=
  match s with
  | EmptyString => false
  | String a r => Ascii.eqb a c || occurs c r
  end.

(** A resize control frame as the loop recognises it: the reserved prefix and
    exactly three fields between colons. *)
Definition is_resize_frame (message : string) : bool :=
  Py.startswith message "__RESIZE:" && (length (Py.split ":" message) =? 3)%nat.

(** Requests against the schedule registry, one per call of an end point. *)
Inductive registry_op : Type :=
  | Upsert (nm cron : string) (environment_vars : list (string * string))
           (client_host : string) (u : User) (script : string)
  | Remove (nm : string) (client_host : string) (u : User).

Definition run_op (host : Host) (op : registry_op) (w : World) : World :=
  match op with
  | Upsert nm cron env ip u script => (schedule_script host nm cron env ip u script w).1
  | Remove nm ip u => (unschedule_script host nm ip u w).1
  end.

(** The world after a sequence of requests, served one after the other. *)
Definition run_ops (host : Host) (ops : list registry_op) (w : World) : World :=
  fold_left (fun w op => run_op host op w) ops w.

(** An entry that does not disturb the count of lines marked for [nm]: the
    entry of [nm] itself carries the marker on at most one line, the entry of
    another name on none. *)
Definition entry_respects (host : Host) (nm : string) (op : registry_op) : bool :=
  match op with
  | Upsert nm' cron _ _ u script =>
      (length (List.filter (Py.contains (marker nm))
                 (Py.splitlines (cron_entry cron (wrapper_path_of host u script) nm')))
       <=? (if String.eqb nm' nm then 1 else 0))%nat
  | Remove _ _ _ => true
  end.

(** ** A concrete machine *)

(** [str(e)] as the framework prints an [HTTPException]. *)
Definition starlette_str (e : exn) : string :=
  match e with
  | HTTPException c d => Py.str_of_Z (Z.of_nat c) +:+ ": " +:+ d
  | TimeoutError => ""
  | PyError m => m
  end.

Definition demo_process (quick : bool) (rc : Z) : Process :=
  {| pid := 4711; returncode := rc; stdout := "done"; stderr := "boom";
     completes_within := fun _ => quick |}.

Definition demo_host (quick : bool) (rc : Z) : Host :=
  {| os_name := "posix";
     cwd := "/srv/panel";
     sys_executable := "/usr/bin/python3";
     BASE_DIR := "/home";
     spawn := fun _ _ => inr (demo_process quick rc);
     crontab_refuses := fun _ => None;
     str_exn := starlette_str |}.

Definition demo_world : World :=
  {| fs := <["/home/alice/.venv/bin/pip" := File ""]>
             (<["/home/alice/.venv" := Dir]>
                (<["/home/alice/job.py" := File "print(1)"]>
                   (<["/home/alice" := Dir]> ∅)));
     crontab := None;
     active_sessions := [];
     killed := [];
     terminated := [];
     activity := [] |}.

Definition alice : User := {| username := "alice"; role := USER |}.

Definition nightly : registry_op := Upsert "nightly" "0 3 * * *" [] "10.0.0.5" alice "job.py".
Definition hourly : registry_op := Upsert "nightly" "0 * * * *" [] "10.0.0.5" alice "job.py".
Definition embedding : registry_op := Upsert "x # nightly" "0 4 * * *" [] "10.0.0.5" alice "job.py".

(** ** The rest of the session manager *)

(** [k in d] *)
Definition dict_mem {V : Type} (k : string) (d : list (string * V)) : bool :=
  match dict_get k d with Some _ => true | None => false end.

(** The [finally] block of [terminal_websocket], lines 97 to 104: the
    clean-up that runs when either flow of the session has ended. *)
Definition close_session (user session_id : string) (process : Process)
    (client_ip : string) : M unit :=
  let* registry := gets active_sessions in
  (if dict_mem session_id registry
   then
     modify (add_terminated (pid process)) ;;
     modify (fun w => set_active_sessions (dict_del session_id (active_sessions w)) w)
   else ret tt) ;;
  log_activity user "terminal_disconnect" client_ip
               ("Terminal session ended: " +:+ session_id).

(** ** The rest of the deployer and the file manager *)

Record UploadFile : Type := {
  filename : string;
  data : string
}.

Record UploadResponse : Type := {
  up_message : string;
  up_filename : string;
  up_path : string
}.

Record VenvResponse : Type := {
  venv_message : string;
  venv_venv_path : string;
  venv_script_path : string
}.

Record PathResponse : Type := {
  path_message : string;
  path_path : string
}.

(** [s.endswith(suffix)] *)
Definition endswith (s suffix : string) : bool :=
  Py.startswith (String.rev s) (String.rev suffix).

(** Is [key] the directory [dir] or a path beneath it? *)
Definition beneath (dir key : string) : bool :=
  String.eqb key dir
  || Py.startswith key (if endswith dir "/" then dir else dir +:+ "/").

Section Files.

Variable host : Host.

(** [os.path.isdir(p)] *)
Definition path_isdir (p : string) (w : World) : bool :=
  match fs w !! path_key host p with
  | Some Dir => true
  | _ => false
  end.

(** [os.makedirs(p)] without [exist_ok]; intermediate directories are not
    tracked. *)
Definition makedirs_new (p : string) : M unit :=
  fun w =>
    match fs w !! path_key host p with
    | None => (set_fs (<[path_key host p := Dir]> (fs w)) w, inr tt)
    | Some _ => (w, inl (PyError "FileExistsError"))
    end.

(** [os.remove(p)] for a path that exists and is no directory. *)
Definition remove_file (p : string) : M unit :=
  modify (fun w => set_fs (delete (path_key host p) (fs w)) w).

(** [shutil.rmtree(p)]: the directory goes with everything beneath it. *)
Definition rmtree (p : string) : M unit :=
  modify (fun w =>
            set_fs (filter (fun kv => beneath (path_key host p) kv.1 = false) (fs w)) w).

(** [create_virtual_environment]; [subprocess.run] with [check=True] raises
    for a non-zero exit code, and only that exception is handled.  On success
    the tool has left the directory of the environment behind. *)
Definition create_virtual_environment (script client_host : string) (current_user : User)
    : M VenvResponse :=
  let* located := locate_script host current_user script in
  let user_dir := located.1 in
  let full_script_path := located.2 in
  let script_dir := PosixPath.dirname full_script_path in
  let venv_path := PosixPath.join script_dir ".venv" in
  let* venv := gets (path_exists host venv_path) in
  when_ venv (HTTPException 400 "Virtual environment already exists for this script") ;;
  let* process := lift (spawn host [sys_executable host; "-m"; "venv"; venv_path] "") in
  when_ (negb (returncode process =? 0)%Z)
        (HTTPException 500 ("Failed to create virtual environment: " +:+ stderr process)) ;;
  makedirs host venv_path ;;
  log_activity (username current_user) "create_virtualenv" client_host
               ("Created virtual environment for: " +:+ script) ;;
  ret {| venv_message := "Virtual environment created successfully";
         venv_venv_path :=
           Py.lstrip "/" (Py.replace (Py.replace venv_path user_dir "") "\" "/");
         venv_script_path := script |}.

(** [upload_script]; the chunks read from the upload are written one after
    the other, so the file receives all of [data]. *)
Definition upload_script (file : UploadFile) (client_host : string) (current_user : User)
    (path : string) : M UploadResponse :=
  let* user_dir := get_user_dir host (username current_user) in
  let target_dir := PosixPath.join user_dir path in
  when_ (negb (is_safe_path (cwd host) target_dir user_dir))
        (HTTPException 403 "Access denied to this path") ;;
  let* found := gets (path_exists host target_dir) in
  when_ (negb found) (HTTPException 404 "Path not found") ;;
  let* isdir := gets (path_isdir target_dir) in
  when_ (negb isdir) (HTTPException 400 "Path is not a directory") ;;
  when_ (negb (endswith (filename file) ".py"))
        (HTTPException 400 "Only Python scripts (.py) are allowed") ;;
  let file_path := PosixPath.join target_dir (filename file) in
  write_file host file_path (data file) ;;
  log_activity (username current_user) "upload_script" client_host
               ("Uploaded Python script: " +:+ PosixPath.join path (filename file)) ;;
  ret {| up_message := "Script uploaded successfully";
         up_filename := filename file;
         up_path := Py.replace (PosixPath.join path (filename file)) "\" "/" |}.

(** [create_directory] *)
Definition create_directory (path nm client_host : string) (current_user : User)
    : M PathResponse :=
  let* user_dir := get_user_dir host (username current_user) in
  let parent_dir := PosixPath.join user_dir path in
  when_ (negb (is_safe_path (cwd host) parent_dir user_dir))
        (HTTPException 403 "Access denied to this path") ;;
  let* found := gets (path_exists host parent_dir) in
  when_ (negb found) (HTTPException 404 "Parent directory not found") ;;
  let* isdir := gets (path_isdir parent_dir) in
  when_ (negb isdir) (HTTPException 400 "Parent path is not a directory") ;;
  let new_dir := PosixPath.join parent_dir nm in
  let* taken := gets (path_exists host new_dir) in
  when_ taken (HTTPException 400 "Directory already exists") ;;
  makedirs_new new_dir ;;
  log_activity (username current_user) "create_directory" client_host
               ("Created directory: " +:+ PosixPath.join path nm) ;;
  ret {| path_message := "Directory created successfully";
         path_path := Py.replace (PosixPath.join path nm) "\" "/" |}.

(** [delete_item]; the removal itself is taken to succeed, so the handler of
    its [try] has nothing to catch. *)
Definition delete_item (path client_host : string) (current_user : User)
    : M PathResponse :=
  let* user_dir := get_user_dir host (username current_user) in
  let item_path := PosixPath.join user_dir path in
  when_ (negb (is_safe_path (cwd host) item_path user_dir))
        (HTTPException 403 "Access denied to this path") ;;
  let* found := gets (path_exists host item_path) in
  when_ (negb found) (HTTPException 404 "Path not found") ;;
  let* is_directory := gets (path_isdir item_path) in
  (if is_directory then rmtree item_path else remove_file item_path) ;;
  log_activity (username current_user)
               (if is_directory then "delete_directory" else "delete_file") client_host
               ("Deleted " +:+ (if is_directory then "directory" else "file") +:+ ": "
                +:+ path) ;;
  ret {| path_message :=
           (if is_directory then "Directory" else "File") +:+ " deleted successfully";
         path_path := path |}.

End Files.

(** ** Further vocabulary and machines *)

(** The detail of the error that [schedule_script] raises for a cron
    expression that does not have five fields. *)
Definition cron_error : string :=
  "Invalid cron expression. Must have 5 parts: minute, hour, day of month, month, day of week".

(** The text that closes every marker. *)
Definition marker_tail : string := " - managed by control-panel".

Definition venv_path_of (host : Host) (u : User) (script : string) : string :=
  PosixPath.join (script_dir_of host u script) ".venv".

(** A host on which no process can be started and [crontab] refuses every
    table. *)
Definition broken_host : Host :=
  {| os_name := "posix";
     cwd := "/srv/panel";
     sys_executable := "/usr/bin/python3";
     BASE_DIR := "/home";
     spawn := fun _ _ => inl (PyError "FileNotFoundError");
     crontab_refuses := fun _ => Some "bad minute";
     str_exn := starlette_str |}.

(** The home of [alice] before any environment has been created. *)
Definition bare_world : World :=
  {| fs := <["/home/alice/job.py" := File "print(1)"]> (<["/home/alice" := Dir]> ∅);
     crontab := None;
     active_sessions := [];
     killed := [];
     terminated := [];
     activity := [] |}.

(** Two live sessions, one of [alice] and one of [bob]. *)
Definition session_world : World :=
  (open_session (demo_host true 0) "bob" 7 "10.0.0.9"
     (open_session (demo_host true 0) "alice" 140 "10.0.0.7" demo_world).1).1.

Definition tool_upload : UploadFile := {| filename := "tool.py"; data := "print(2)" |}.

(** Unfolds the monad down to functions on worlds. *)
Ltac run_monad :=
  unfold decode_or_raise, try_except, except_TimeoutError, bind, when_, gets, modify,
         ret, raise, lift in *.

Example normpath_dotdot :
  PosixPath.normpath "/home/alice/../alice-evil/x.txt" = "/home/alice-evil/x.txt".
Proof. reflexivity. Qed.

Example normpath_misc :
  PosixPath.normpath "//a/./b//../c/" = "//a/c"
  /\ PosixPath.normpath "../../a" = "../../a"
  /\ PosixPath.normpath "/../a" = "/a"
  /\ PosixPath.normpath "a/.." = "."
  /\ PosixPath.normpath "///x" = "/x".
Proof. repeat split; reflexivity. Qed.

Example splitlines_examples :
  Py.splitlines ("a" +:+ String "010" ("" +:+ String "013" (String "010" "b"))) = ["a"; ""; "b"]
  /\ Py.splitlines (String "010" "") = [""]
  /\ Py.splitlines ("ab" +:+ String "010" "") = ["ab"]
  /\ Py.splitlines "" = [].
Proof. repeat split; reflexivity. Qed.

Example path_examples :
  PosixPath.dirname "/home/u/a.py" = "/home/u"
  /\ PosixPath.dirname "/a.py" = "/"
  /\ PosixPath.dirname "a.py" = ""
  /\ PosixPath.basename "/home/u/a.py" = "a.py"
  /\ PosixPath.splitext_root "a.tar.gz" = "a.tar"
  /\ PosixPath.splitext_root ".bashrc" = ".bashrc"
  /\ PosixPath.splitext_root "job.py" = "job"
  /\ Py.split_ws " 1  2 3 " = ["1"; "2"; "3"]
  /\ Py.replace "/home/u/x/home/u" "/home/u" "" = "/x"
  /\ Py.str_of_Z 30 = "30".
Proof. repeat split; reflexivity. Qed.

(** ** Lines and substrings *)

Lemma app_String c (a b : string) : String c a +:+ b = String c (a +:+ b).
Proof. reflexivity. Qed.

Lemma app_empty_r (a : string) : a +:+ "" = a.
Proof. induction a as [|c a IH]; [done|]. by rewrite app_String, IH. Qed.

Lemma splitlines_char c r :
  Py.is_linebreak c = false ->
  Py.splitlines (String c r) =
    match Py.splitlines r with
    | [] => [String c ""]
    | l :: ls => String c l :: ls
    end.
Proof. intros H. simpl. by rewrite H. Qed.

Lemma splitlines_lf t : Py.splitlines (LF +:+ t) = "" :: Py.splitlines t.
Proof. destruct t; reflexivity. Qed.

Lemma splitlines_line l t :
  linebreak_free l = true ->
  Py.splitlines (l +:+ LF +:+ t) = l :: Py.splitlines t.
Proof.
  induction l as [|c l IH]; intros Hl.
  - apply splitlines_lf.
  - simpl in Hl. apply andb_prop in Hl as [Hc Hl].
    apply negb_true_iff in Hc.
    rewrite app_String, splitlines_char by done. by rewrite IH.
Qed.

Lemma join_cons_cons sep a b l :
  Py.join sep (a :: b :: l) = a +:+ sep +:+ Py.join sep (b :: l).
Proof. reflexivity. Qed.

(** Joining lines with LF and splitting again gives the lines back, and the
    lines of whatever text was put last. *)
Lemma splitlines_join_snoc ls e :
  Forall (fun l => linebreak_free l = true) ls ->
  Py.splitlines (Py.join LF (ls ++ [e])) = ls ++ Py.splitlines e.
Proof.
  induction 1 as [|l ls Hl Hls IH]; [done|].
  destruct ls as [|l' ls]; simpl app in *.
  - rewrite join_cons_cons. by rewrite splitlines_line.
  - rewrite join_cons_cons, splitlines_line by done. by rewrite IH.
Qed.

Lemma splitlines_free_aux n : forall s,
  String.length s <= n -> Forall (fun l => linebreak_free l = true) (Py.splitlines s).
Proof.
  induction n as [|n IH]; intros s Hn.
  - destruct s; [constructor | simpl in Hn; lia].
  - destruct s as [|c r]; [constructor|]. simpl in Hn.
    simpl. destruct (Py.is_linebreak c) eqn:Hc.
    + constructor; [done|]. destruct r as [|c2 r2]; [constructor|].
      simpl in Hn. destruct (Py.is_cr c && Py.is_lf c2); apply IH; simpl; lia.
    + assert (Hr := IH r ltac:(lia)).
      destruct (Py.splitlines r) as [|l ls].
      * constructor; [|constructor]. simpl. by rewrite Hc.
      * inversion Hr; subst. constructor; [|done]. simpl. by rewrite Hc.
Qed.

Lemma splitlines_free s : Forall (fun l => linebreak_free l = true) (Py.splitlines s).
Proof. by apply (splitlines_free_aux (String.length s)). Qed.

Lemma splitlines_one s :
  linebreak_free s = true -> s <> "" -> Py.splitlines s = [s].
Proof.
  induction s as [|c r IH]; [done|]. intros H _. simpl in H.
  apply andb_prop in H as [Hc Hr]. apply negb_true_iff in Hc.
  rewrite splitlines_char by done.
  destruct r as [|c' r']; [done|]. by rewrite IH.
Qed.

Lemma splitlines_one_lf s :
  linebreak_free s = true -> Py.splitlines (s +:+ LF) = [s].
Proof.
  intros H. pose proof (splitlines_line s "" H) as E. simpl in E. exact E.
Qed.

(** Without a text put last, an empty final line is the one thing lost. *)
Lemma splitlines_join ls :
  Forall (fun l => linebreak_free l = true) ls ->
  Py.splitlines (Py.join LF ls) = ls \/ ls = Py.splitlines (Py.join LF ls) ++ [""].
Proof.
  intros H. destruct ls as [|l0 ls0] using rev_ind; [by left|].
  clear IHls0. apply Forall_app in H as [H1 H2].
  rewrite splitlines_join_snoc by done.
  inversion H2 as [|? ? Hl _]; subst.
  destruct (decide (l0 = "")) as [->|Hne].
  - right. simpl. by rewrite app_nil_r.
  - left. by rewrite splitlines_one.
Qed.

Lemma prefix_app (a b : string) : String.prefix a (a +:+ b) = true.
Proof.
  induction a as [|c a IH]; [by destruct b|].
  rewrite app_String. simpl. destruct (ascii_dec c c); [done|congruence].
Qed.

Lemma contains_unfold (sub s : string) :
  Py.contains sub s =
    String.prefix sub s ||
    match s with EmptyString => false | String _ s' => Py.contains sub s' end.
Proof. by destruct s. Qed.

Lemma contains_prefix (sub s : string) :
  String.prefix sub s = true -> Py.contains sub s = true.
Proof. intros H. by rewrite contains_unfold, H. Qed.

Lemma contains_app_r (sub a s : string) :
  Py.contains sub s = true -> Py.contains sub (a +:+ s) = true.
Proof.
  intros H. induction a as [|c a IH]; [done|].
  rewrite app_String, contains_unfold, IH. apply orb_true_r.
Qed.

Lemma contains_self (sub : string) : Py.contains sub sub = true.
Proof.
  pose proof (contains_prefix sub (sub +:+ "") (prefix_app sub "")) as H.
  by rewrite app_empty_r in H.
Qed.

Lemma entry_line_marked host nm cron u script :
  Py.contains (marker nm) (entry_line host nm cron u script) = true.
Proof. unfold entry_line. do 4 apply contains_app_r. apply contains_self. Qed.

Lemma cron_entry_line host nm cron u script :
  cron_entry cron (wrapper_path_of host u script) nm
  = entry_line host nm cron u script +:+ LF.
Proof.
  unfold cron_entry, entry_line.
  assert (A : forall a b c : string, (a +:+ b) +:+ c = a +:+ b +:+ c).
  { intros a b c. induction a as [|x a IH]; [done|]. by rewrite !app_String, IH. }
  by rewrite !A.
Qed.

Lemma existsb_filter_nil {A} (f : A -> bool) l :
  existsb f l = false <-> List.filter f l = [].
Proof.
  induction l as [|a l IH]; simpl; [done|].
  destruct (f a); simpl; [split; discriminate | exact IH].
Qed.

Lemma filter_filter_length {A} (f g : A -> bool) l :
  length (List.filter f (List.filter g l)) <= length (List.filter f l).
Proof.
  induction l as [|a l IH]; simpl; [done|].
  destruct (g a), (f a) eqn:E; simpl; rewrite ?E; simpl; lia.
Qed.

(** The loop of [unschedule_script] is a filter that also reports whether it
    dropped anything. *)
Lemma drop_marked_spec nm ls found acc :
  drop_marked nm ls found acc =
    (found || existsb (Py.contains (marker nm)) ls, acc ++ List.filter (not_marked nm) ls).
Proof.
  revert found acc. induction ls as [|l ls IH]; intros found acc; simpl.
  - by rewrite orb_false_r, app_nil_r.
  - unfold not_marked at 1. destruct (Py.contains (marker nm) l); simpl.
    + rewrite IH. by rewrite orb_true_r.
    + rewrite IH. by rewrite <- app_assoc.
Qed.

Lemma kept_lines_free nm table :
  Forall (fun l => linebreak_free l = true) (kept_lines nm table).
Proof.
  unfold kept_lines.
  induction (splitlines_free (default "" table)) as [|l ls Hl _ IH]; simpl.
  - constructor.
  - destruct (not_marked nm l); [by constructor | done].
Qed.

Lemma marked_kept_nil nm table :
  List.filter (Py.contains (marker nm)) (kept_lines nm table) = [].
Proof.
  unfold kept_lines. induction (Py.splitlines (default "" table)) as [|l ls IH]; [done|].
  simpl. unfold not_marked at 1.
  destruct (Py.contains (marker nm) l) eqn:E; simpl; [done|]. by rewrite E.
Qed.

Lemma marked_kept_other nm nm' table :
  length (List.filter (Py.contains (marker nm)) (kept_lines nm' table))
  <= length (marked_lines nm table).
Proof. apply filter_filter_length. Qed.

Lemma marked_lines_upsert nm nm' table e :
  marked_lines nm (Some (Py.join LF (kept_lines nm' table ++ [e]))) =
    List.filter (Py.contains (marker nm)) (kept_lines nm' table)
    ++ List.filter (Py.contains (marker nm)) (Py.splitlines e).
Proof.
  unfold marked_lines. simpl.
  rewrite splitlines_join_snoc by apply kept_lines_free.
  apply List.filter_app.
Qed.

Lemma marked_lines_remove nm nm' table :
  length (marked_lines nm (Some (Py.join LF (kept_lines nm' table))))
  <= length (marked_lines nm table).
Proof.
  etrans; [|apply (marked_kept_other nm nm' table)].
  unfold marked_lines at 1. simpl.
  destruct (splitlines_join (kept_lines nm' table) (kept_lines_free _ _)) as [E|E].
  - by rewrite E.
  - rewrite E at 2. rewrite List.filter_app, length_app. lia.
Qed.

Lemma split_head c s : exists rest, Py.split c s = before_first c s :: rest.
Proof.
  induction s as [|a s [rest IH]]; simpl; [by eexists|].
  destruct (Ascii.eqb a c); [by eexists|]. rewrite IH. by eexists.
Qed.

Lemma split_no_sep c s : occurs c s = false -> Py.split c s = [s].
Proof.
  induction s as [|a s IH]; [done|]. simpl.
  destruct (Ascii.eqb a c); [done|]. simpl. intros H. by rewrite IH.
Qed.

Lemma split_app_sep c a b :
  occurs c a = false -> Py.split c (a +:+ String c b) = a :: Py.split c b.
Proof.
  induction a as [|x a IH]; simpl.
  - intros _. change ("" +:+ String c b) with (String c b). simpl.
    by rewrite Ascii.eqb_refl.
  - destruct (Ascii.eqb x c) eqn:E; [done|]. simpl. intros H. by rewrite IH.
Qed.

Lemma re_search_between_contains a b s g :
  re_search_between a b s = Some g -> Py.contains a s = true.
Proof.
  induction s as [|c s IH]; rewrite contains_unfold.
  - cbn [re_search_between]. destruct (String.prefix a ""); [done|]. discriminate.
  - cbn [re_search_between]. destruct (String.prefix a (String c s)); [done|].
    simpl. exact IH.
Qed.

(** A line that never mentions the interpreter yields no script path. *)
Lemma re_python_none line :
  Py.contains "python " line = false -> re_python line = None.
Proof.
  intros H. unfold re_python.
  destruct (re_search_between "python " ".py" line) as [g|] eqn:E; [|done].
  apply re_search_between_contains in E. congruence.
Qed.

(** ** What the end points do to the world *)

Lemma locate_script_spec host u script w w1 r :
  locate_script host u script w = (w1, r) ->
  match r with
  | inl e => forall d, e <> HTTPException 500 d
  | inr loc => loc = (user_dir_of host u, full_script_path_of host u script)
  end.
Proof.
  unfold locate_script, get_user_dir, makedirs. run_monad.
  intros H. repeat (case_match; simplify_eq/=; try done).
Qed.

(** A successful [schedule_script] installs the kept lines followed by the new
    entry; a failed one leaves the table alone. *)
Lemma schedule_script_effect host nm cron env ip u script w :
  match schedule_script host nm cron env ip u script w with
  | (w', inr _) =>
      crontab w' = Some (Py.join LF (kept_lines nm (crontab w)
                                      ++ [cron_entry cron (wrapper_path_of host u script) nm]))
  | (w', inl _) => crontab w' = crontab w
  end.
Proof.
  unfold schedule_script, locate_script, get_user_dir, makedirs, write_file,
    read_crontab, install_crontab, log_activity.
  run_monad.
  repeat (case_match; simplify_eq/=; try done).
Qed.

(** A successful [unschedule_script] found a marked line and installs the kept
    lines; a failed one leaves the whole world alone. *)
Lemma unschedule_script_effect host nm ip u w :
  match unschedule_script host nm ip u w with
  | (w', inr _) =>
      marked_lines nm (crontab w) <> []
      /\ crontab w' = Some (Py.join LF (kept_lines nm (crontab w)))
  | (w', inl _) => w' = w
  end.
Proof.
  unfold unschedule_script, install_crontab, log_activity.
  run_monad.
  repeat (case_match; simplify_eq/=; try done).
  rewrite drop_marked_spec in *; simpl in *.
  unfold marked_lines, kept_lines.
  match goal with H : crontab _ = Some _ |- _ => rewrite H end. simpl.
  split; [|done]. intros E%existsb_filter_nil.
  match goal with H : negb _ = false |- _ => by rewrite E in H end.
Qed.

Lemma frame_bytes_spec message :
  frame_bytes message = if is_resize_frame message then None else Some (encode message).
Proof.
  unfold frame_bytes, is_resize_frame.
  destruct (Py.startswith message "__RESIZE:"); [|done]. simpl.
  destruct (Py.split ":" message) as [|a [|b [|c [|d l]]]]; done.
Qed.

(** When the script finishes in time, [run_script] answers with its exit code
    and its decoded output, whatever the exit code, and kills nothing. *)
Lemma run_script_completed host script ip u args timeout w w1 located process out err :
  locate_script host u script w = (w1, inr located) ->
  (forall argv dir, spawn host argv dir = inr process) ->
  completes_within process timeout = true ->
  decode (stdout process) = Some out ->
  decode (stderr process) = Some err ->
  exists w2 message,
    run_script host script ip u args timeout w =
      (w2, inr {| run_message := message;
                  run_returncode := returncode process;
                  run_stdout := out;
                  run_stderr := err;
                  run_script_path := script |})
    /\ killed w2 = killed w1.
Proof.
  intros Hloc Hspawn Hquick Hout Herr.
  unfold run_script, wait_for_communicate, log_activity.
  unfold bind at 1. rewrite Hloc.
  run_monad. rewrite Hspawn, Hquick. simpl. rewrite Hout, Herr. simpl.
  by eexists _, _.
Qed.

(** ** The sandbox *)

(** C1: the sandbox check does not reject every path whose normalised form
    lies outside the user's directory.  The path [../alice-evil/notes.txt]
    under the root [/home/alice] normalises to a file of the sibling directory
    [/home/alice-evil], whose name has the root as a string prefix, and
    [is_safe_path] accepts it. *)
Theorem sibling_directory_is_accepted cwd :
  PosixPath.abspath cwd (PosixPath.join "/home/alice" "../alice-evil/notes.txt")
    = "/home/alice-evil/notes.txt"
  /\ is_safe_path cwd (PosixPath.join "/home/alice" "../alice-evil/notes.txt") "/home/alice"
     = true.
Proof. split; reflexivity. Qed.

(** ** The job runner *)

(** C2: when the script does not finish within the timeout, [run_script]
    kills the process and returns no output, but the time-out exception it
    raises with status 408 is caught by its own enclosing handler, so the
    caller receives status 500 with the time-out text wrapped inside. *)
Theorem run_script_timeout_reported_as_500
    host script ip u args timeout w w1 located process :
  locate_script host u script w = (w1, inr located) ->
  (forall argv dir, spawn host argv dir = inr process) ->
  completes_within process timeout = false ->
  run_script host script ip u args timeout w =
    (add_killed (pid process) w1,
     inl (HTTPException 500
            ("Failed to run script: "
             +:+ str_exn host
                   (HTTPException 408
                      ("Script execution timed out after " +:+ Py.str_of_Z timeout
                       +:+ " seconds"))))).
Proof.
  intros Hloc Hspawn Hslow.
  unfold run_script, wait_for_communicate, kill.
  unfold bind at 1. rewrite Hloc.
  run_monad. rewrite Hspawn, Hslow. reflexivity.
Qed.

Lemma run_script_timeout_reported_as_500_witness :
  run_script (demo_host false 0) "job.py" "10.0.0.5" alice [] 1 demo_world =
    (add_killed 4711 demo_world,
     inl (HTTPException 500
            "Failed to run script: 408: Script execution timed out after 1 seconds")).
Proof.
  apply (run_script_timeout_reported_as_500 (demo_host false 0) "job.py" "10.0.0.5" alice []
           1 demo_world demo_world ("/home/alice", "/home/alice/job.py")
           (demo_process false 0)).
  - vm_compute. reflexivity.
  - reflexivity.
  - reflexivity.
Defined.

(** C9: [install_requirements] writes the manifest before it starts the
    installer.  When the installer then exits with a non-zero code the
    operation fails, and whenever it fails with status 500 the manifest on
    disk holds the new package list: nothing restores the old content. *)
Theorem install_failure_keeps_new_manifest host reqs ip u script w w' r process :
  spawn host [pip_path_of host u script; "install"; "-r"; req_file_of host u script] ""
    = inr process ->
  returncode process <> 0%Z ->
  install_requirements host reqs ip u script w = (w', r) ->
  (exists e, r = inl e)
  /\ (forall detail,
      r = inl (HTTPException 500 detail) ->
      fs w' !! path_key host (req_file_of host u script) = Some (File (Py.join LF reqs))).
Proof.
  intros Hspawn Hrc Hrun. apply Z.eqb_neq in Hrc.
  unfold install_requirements in Hrun. unfold bind at 1 in Hrun.
  destruct (locate_script host u script w) as [w1 [e|loc]] eqn:Hloc.
  { apply locate_script_spec in Hloc. simplify_eq. split; [by eexists|].
    intros d Hd. simplify_eq. by destruct (Hloc d). }
  apply locate_script_spec in Hloc. subst loc. cbn [snd] in Hrun.
  fold (script_dir_of host u script) in Hrun.
  fold (req_file_of host u script) in Hrun.
  fold (pip_path_of host u script) in Hrun.
  unfold write_file, log_activity in Hrun. run_monad.
  rewrite Hspawn, Hrc in Hrun. cbn [negb] in Hrun.
  repeat (case_match; simplify_eq/=; try done);
    (split; [by eexists|]); intros; unfold raise, ret in *; simplify_eq/=;
    by rewrite lookup_insert_eq.
Qed.

Lemma install_failure_keeps_new_manifest_witness :
  (install_requirements (demo_host true 1) ["requests"; "flask"] "10.0.0.5" alice "job.py"
     demo_world).2
  = inl (HTTPException 500
           "Failed to install requirements: 500: Failed to install requirements: boom")
  /\ fs (install_requirements (demo_host true 1) ["requests"; "flask"] "10.0.0.5" alice
           "job.py" demo_world).1
       !! "/home/alice/requirements.txt"
     = Some (File ("requests" +:+ LF +:+ "flask")).
Proof.
  split; [vm_compute; reflexivity|].
  eapply (proj2 (install_failure_keeps_new_manifest (demo_host true 1) ["requests"; "flask"]
                   "10.0.0.5" alice "job.py" demo_world _ _ (demo_process true 1)
                   eq_refl ltac:(discriminate) eq_refl)).
  vm_compute. reflexivity.
Defined.

(** ** The schedule registry *)

(** C3, as stated, fails: starting from an empty table, an entry for the name
    [nightly] followed by an entry for the name [x # nightly] leaves two lines
    that contain the marker of [nightly]. *)
Lemma embedded_marker_breaks_invariant :
  length (marked_lines "nightly" (crontab demo_world)) <= 1
  /\ length (marked_lines "nightly"
               (crontab (run_ops (demo_host true 0) [nightly; embedding] demo_world)))
     = 2.
Proof. split; vm_compute; [lia | reflexivity]. Qed.

(** C3, amended: right after a successful [schedule_script] for a name whose
    entry is a single line, exactly one line of the table carries the marker
    of that name, and it is the new entry, so a second call with another cron
    expression leaves one entry bearing the second expression.  Along any
    sequence of [schedule_script] and [unschedule_script] requests, a table
    with at most one line marked for a name keeps that property as long as
    no entry added for another name contains the marker and the entry of the
    name itself carries it on at most one line. *)
Theorem schedule_table_invariant host :
  (forall nm cron env ip u script w w' resp,
      schedule_script host nm cron env ip u script w = (w', inr resp) ->
      linebreak_free (entry_line host nm cron u script) = true ->
      marked_lines nm (crontab w') = [entry_line host nm cron u script])
  /\ (forall nm ops w,
      forallb (entry_respects host nm) ops = true ->
      length (marked_lines nm (crontab w)) <= 1 ->
      length (marked_lines nm (crontab (run_ops host ops w))) <= 1).
Proof.
  split.
  - intros nm cron env ip u script w w' resp Hrun Hfree.
    pose proof (schedule_script_effect host nm cron env ip u script w) as E.
    rewrite Hrun in E. rewrite E, marked_lines_upsert, marked_kept_nil.
    rewrite cron_entry_line, splitlines_one_lf by done. simpl.
    by rewrite entry_line_marked.
  - intros nm ops. unfold run_ops.
    induction ops as [|op ops IH]; intros w Hops Hw; [done|].
    simpl in *. apply andb_prop in Hops as [Hop Hops].
    apply IH; [done|]. clear IH Hops.
    destruct op as [nm' cron env ip u script|nm' ip u]; simpl in *.
    + pose proof (schedule_script_effect host nm' cron env ip u script w) as E.
      destruct (schedule_script host nm' cron env ip u script w) as [w1 [e|resp]];
        simpl; rewrite E; [done|].
      rewrite marked_lines_upsert, length_app.
      apply Nat.leb_le in Hop.
      destruct (String.eqb_spec nm' nm) as [->|Hne].
      * rewrite marked_kept_nil. simpl. lia.
      * pose proof (marked_kept_other nm nm' (crontab w)). lia.
    + pose proof (unschedule_script_effect host nm' ip u w) as E.
      destruct (unschedule_script host nm' ip u w) as [w1 [e|resp]]; simpl.
      * by rewrite E.
      * destruct E as [_ E]. rewrite E.
        pose proof (marked_lines_remove nm nm' (crontab w)). lia.
Qed.

Lemma schedule_table_invariant_witness :
  marked_lines "nightly"
    (crontab (run_ops (demo_host true 0) [nightly; hourly] demo_world))
  = [entry_line (demo_host true 0) "nightly" "0 * * * *" alice "job.py"]
  /\ length (marked_lines "nightly"
               (crontab (run_ops (demo_host true 0)
                           [nightly; Remove "weekly" "10.0.0.5" alice; hourly] demo_world)))
     <= 1.
Proof.
  split.
  - eapply (proj1 (schedule_table_invariant (demo_host true 0))
              "nightly" "0 * * * *" [] "10.0.0.5" alice "job.py"
              (run_op (demo_host true 0) nightly demo_world)).
    + vm_compute. reflexivity.
    + vm_compute. reflexivity.
  - apply (proj2 (schedule_table_invariant (demo_host true 0)) "nightly").
    + vm_compute. reflexivity.
    + vm_compute. lia.
Defined.





(** C6: the entry that [schedule_script] installs for the script [job.py] is
    listed by [list_scheduled_scripts] with its name and its cron expression,
    but with the script path [Unknown]: the installed line names the wrapper,
    and the pattern that looks for the interpreter followed by a script never
    matches it. *)
Theorem listing_loses_script_path :
  (schedule_script (demo_host true 0) "nightly" "0 3 * * *" [] "10.0.0.5" alice "job.py"
     demo_world).2
  = inr {| sched_message := "Script scheduled successfully";
           sched_name := "nightly";
           sched_script_path := "job.py";
           sched_cron_expression := "0 3 * * *";
           sched_wrapper_path := "job_wrapper.sh" |}
  /\ (list_scheduled_scripts (demo_host true 0) "10.0.0.5" alice
        (run_op (demo_host true 0) nightly demo_world)).2
     = inr [ {| name := "nightly";
                cron_expression := "0 3 * * *";
                script_path := "Unknown" |} ].
Proof. split; vm_compute; reflexivity. Qed.

(** ** The session manager *)

(** What the listing returns: every key for an administrator, the keys that
    start with the user name and an underscore for anyone else. *)
Lemma list_terminal_sessions_value ip u w :
  (list_terminal_sessions ip u w).2 =
    inr (if is_admin u then dict_keys (active_sessions w)
         else List.filter (fun session_id => Py.startswith session_id (username u +:+ "_"))
                (dict_keys (active_sessions w))).
Proof. reflexivity. Qed.

(** C7: an ordinary user can be shown a session of another user.  After the
    user [a_b] has opened a session, the listing for the ordinary user [a]
    contains it, because the session id starts with the text [a_]. *)
Theorem ordinary_user_sees_prefixed_sessions :
  (open_session (demo_host true 0) "a_b" 140 "10.0.0.7" demo_world).2 = inr "a_b_140"
  /\ (list_terminal_sessions "10.0.0.5" {| username := "a"; role := USER |}
        (open_session (demo_host true 0) "a_b" 140 "10.0.0.7" demo_world).1).2
     = inr ["a_b_140"].
Proof. split; vm_compute; reflexivity. Qed.

(** C8, as stated, fails: the frame [__RESIZE:80] begins with the reserved
    prefix and its bytes are written to the shell. *)
Lemma malformed_resize_frame_is_written :
  Py.startswith "__RESIZE:80" "__RESIZE:" = true
  /\ write_to_process ["__RESIZE:80"] [] = [encode "__RESIZE:80"].
Proof. split; reflexivity. Qed.

(** C8, amended: [write_to_process] consumes exactly the frames that begin
    with the reserved prefix and consist of three fields between colons, and
    writes the bytes of every other frame, in order and unmodified; a frame
    made of the prefix, a column count and a row count is among the consumed
    ones. *)
Theorem write_to_process_spec :
  (forall frames stdin,
      write_to_process frames stdin =
        stdin ++ (encode <$> List.filter (fun m => negb (is_resize_frame m)) frames))
  /\ (forall cols rows,
      occurs ":" cols = false -> occurs ":" rows = false ->
      is_resize_frame ("__RESIZE:" +:+ cols +:+ ":" +:+ rows) = true).
Proof.
  split.
  - induction frames as [|m frames IH]; intros stdin; simpl.
    + by rewrite app_nil_r.
    + rewrite frame_bytes_spec. destruct (is_resize_frame m); simpl.
      * apply IH.
      * rewrite IH. by rewrite <- app_assoc.
  - intros cols rows Hc Hr. unfold is_resize_frame, Py.startswith.
    rewrite prefix_app. cbn [andb].
    change ("__RESIZE:" +:+ cols +:+ ":" +:+ rows)
      with ("__RESIZE" +:+ String ":" (cols +:+ String ":" rows)).
    rewrite split_app_sep by reflexivity.
    rewrite split_app_sep by done.
    by rewrite split_no_sep.
Qed.

Lemma write_to_process_spec_witness :
  is_resize_frame ("__RESIZE:" +:+ "80" +:+ ":" +:+ "24") = true.
Proof.
  apply (proj2 write_to_process_spec "80" "24"); reflexivity.
Defined.

(** C10: for every session id, taking the first piece of the split on the
    underscore succeeds and yields the text before the first underscore, or
    the whole id when it has none; [kill_terminal_session] therefore ends in
    success, in 403 or in 404, never in the invalid-format error, and it is
    against that first piece that the caller is authorised. *)
Theorem session_owner_always_extracted session_id :
  (forall w, presumed_owner session_id w = (w, inr (before_first "_" session_id)))
  /\ (forall ip u w,
      exists w' r,
        kill_terminal_session session_id ip u w = (w', r)
        /\ (r = inr "Terminal session terminated"
            \/ r = inl (HTTPException 403 "Not authorized to kill this session")
            \/ r = inl (HTTPException 404 "Terminal session not found")))
  /\ (forall ip u w,
      username u <> before_first "_" session_id ->
      is_admin u = false ->
      kill_terminal_session session_id ip u w
      = (w, inl (HTTPException 403 "Not authorized to kill this session"))).
Proof.
  assert (Howner : forall w,
             presumed_owner session_id w = (w, inr (before_first "_" session_id))).
  { intros w. unfold presumed_owner.
    destruct (split_head "_" session_id) as [rest ->]. reflexivity. }
  split; [exact Howner|]. split.
  - intros ip u w. unfold kill_terminal_session.
    unfold bind at 1. rewrite Howner. unfold log_activity. run_monad.
    repeat (case_match; simplify_eq/=); eexists _, _; (split; [reflexivity|]); eauto.
  - intros ip u w Hother Hadmin. unfold kill_terminal_session.
    unfold bind at 1. rewrite Howner. run_monad.
    apply String.eqb_neq in Hother. by rewrite Hother, Hadmin.
Qed.

Lemma session_owner_always_extracted_witness :
  kill_terminal_session "a_b_140" "10.0.0.7" {| username := "a_b"; role := USER |}
    (open_session (demo_host true 0) "a_b" 140 "10.0.0.7" demo_world).1
  = ((open_session (demo_host true 0) "a_b" 140 "10.0.0.7" demo_world).1,
     inl (HTTPException 403 "Not authorized to kill this session")).
Proof.
  apply (proj2 (proj2 (session_owner_always_extracted "a_b_140"))).
  - vm_compute. discriminate.
  - reflexivity.
Defined.

(** ** More about the session manager *)

(** ** Dictionaries *)

Lemma dict_get_None {V : Type} (k : string) (d : list (string * V)) :
  dict_get k d = None <-> k ∉ dict_keys d.
Proof.
  induction d as [|[k' v] d IH]; simpl.
  - split; [intros _; apply not_elem_of_nil | done].
  - rewrite not_elem_of_cons. destruct (String.eqb_spec k' k) as [->|Hne].
    + split; [done | intros [? _]; done].
    + rewrite IH. split; [intros ?; split; congruence | intros [_ ?]; done].
Qed.

Lemma dict_get_del_eq {V : Type} (k : string) (d : list (string * V)) :
  NoDup (dict_keys d) -> dict_get k (dict_del k d) = None.
Proof.
  induction d as [|[k' v] d IH]; simpl; [done|].
  intros [Hk Hd]%NoDup_cons.
  destruct (String.eqb_spec k' k) as [->|Hne]; simpl.
  - by apply dict_get_None.
  - destruct (String.eqb_spec k' k); [done|]. by apply IH.
Qed.

Lemma dict_get_del_ne {V : Type} (k k' : string) (d : list (string * V)) :
  k' <> k -> dict_get k' (dict_del k d) = dict_get k' d.
Proof.
  intros Hne. induction d as [|[k0 v] d IH]; simpl; [done|].
  destruct (String.eqb_spec k0 k) as [->|Hk]; simpl.
  - destruct (String.eqb_spec k k'); [congruence|done].
  - destruct (String.eqb_spec k0 k'); [done|]. exact IH.
Qed.




Lemma str_app_assoc (a b c : string) : (a +:+ b) +:+ c = a +:+ b +:+ c.
Proof. induction a as [|x a IH]; [done|]. by rewrite !app_String, IH. Qed.


Lemma kill_success_unregisters session_id ip u w w1 :
  NoDup (dict_keys (active_sessions w)) ->
  kill_terminal_session session_id ip u w = (w1, inr "Terminal session terminated") ->
  dict_get session_id (active_sessions w1) = None.
Proof.
  intros Hdup. unfold kill_terminal_session, presumed_owner, log_activity.
  destruct (split_head "_" session_id) as [rest ->].
  run_monad. simpl.
  destruct (negb (String.eqb (username u) (before_first "_" session_id))
            && negb (is_admin u)) eqn:Hauth; [done|].
  destruct (dict_get session_id (active_sessions w)) as [process|] eqn:Hget; [|done].
  intros [= <-]. simpl. by apply dict_get_del_eq.
Qed.

Lemma session_world_NoDup : NoDup (dict_keys (active_sessions session_world)).
Proof.
  vm_compute. apply NoDup_cons. split.
  - intros [H|H]%elem_of_cons; [discriminate | by apply elem_of_nil in H].
  - apply NoDup_singleton.
Defined.

(** X1: a successful [kill_terminal_session] sends one SIGTERM to the process
    of the session and removes the session from the registry, so the same
    request made again ends in 404. *)
Theorem kill_twice_not_found session_id ip u w w1 :
  NoDup (dict_keys (active_sessions w)) ->
  kill_terminal_session session_id ip u w = (w1, inr "Terminal session terminated") ->
  (exists process,
      dict_get session_id (active_sessions w) = Some process
      /\ terminated w1 = terminated w ++ [pid process])
  /\ dict_get session_id (active_sessions w1) = None
  /\ kill_terminal_session session_id ip u w1
     = (w1, inl (HTTPException 404 "Terminal session not found")).
Proof.
  intros Hdup. unfold kill_terminal_session, presumed_owner, log_activity.
  destruct (split_head "_" session_id) as [rest ->].
  run_monad. simpl.
  destruct (negb (String.eqb (username u) (before_first "_" session_id))
            && negb (is_admin u)) eqn:Hauth; [done|].
  destruct (dict_get session_id (active_sessions w)) as [process|] eqn:Hget; [|done].
  intros [= <-]. simpl.
  rewrite dict_get_del_eq by done.
  split; [by eexists|]. split; done.
Qed.

Lemma kill_twice_not_found_witness :
  (exists process,
      dict_get "alice_140" (active_sessions session_world) = Some process
      /\ terminated (kill_terminal_session "alice_140" "10.0.0.7" alice session_world).1
         = terminated session_world ++ [pid process])
  /\ dict_get "alice_140"
       (active_sessions (kill_terminal_session "alice_140" "10.0.0.7" alice session_world).1)
     = None
  /\ kill_terminal_session "alice_140" "10.0.0.7" alice
       (kill_terminal_session "alice_140" "10.0.0.7" alice session_world).1
     = ((kill_terminal_session "alice_140" "10.0.0.7" alice session_world).1,
        inl (HTTPException 404 "Terminal session not found")).
Proof.
  apply (kill_twice_not_found "alice_140" "10.0.0.7" alice session_world).
  - exact session_world_NoDup.
  - vm_compute. reflexivity.
Defined.

(** X2: whatever its outcome, [kill_terminal_session] leaves every other
    session of the registry as it was. *)
Theorem kill_leaves_other_sessions session_id other ip u w w1 r :
  other <> session_id ->
  kill_terminal_session session_id ip u w = (w1, r) ->
  dict_get other (active_sessions w1) = dict_get other (active_sessions w).
Proof.
  intros Hne. unfold kill_terminal_session, presumed_owner, log_activity.
  destruct (split_head "_" session_id) as [rest ->].
  run_monad. simpl. intros Hrun.
  repeat (case_match; simplify_eq/=; try done).
  by apply dict_get_del_ne.
Qed.

Lemma kill_leaves_other_sessions_witness :
  dict_get "bob_7"
    (active_sessions (kill_terminal_session "alice_140" "10.0.0.7" alice session_world).1)
  = dict_get "bob_7" (active_sessions session_world).
Proof.
  apply (kill_leaves_other_sessions "alice_140" "bob_7" "10.0.0.7" alice session_world _
           (kill_terminal_session "alice_140" "10.0.0.7" alice session_world).2).
  - discriminate.
  - vm_compute. reflexivity.
Defined.



(** X4: when a session has been killed through the end point, the clean-up
    of its connection finds it gone from the registry and sends no second
    signal. *)
Theorem close_after_kill_is_silent session_id ip u w w1 user process client_ip :
  NoDup (dict_keys (active_sessions w)) ->
  kill_terminal_session session_id ip u w = (w1, inr "Terminal session terminated") ->
  exists w2,
    close_session user session_id process client_ip w1 = (w2, inr tt)
    /\ terminated w2 = terminated w1
    /\ active_sessions w2 = active_sessions w1.
Proof.
  intros Hdup Hkill.
  pose proof (kill_success_unregisters _ _ _ _ _ Hdup Hkill) as Hgone.
  unfold close_session, dict_mem, log_activity. run_monad.
  rewrite Hgone. by eexists.
Qed.

Lemma close_after_kill_is_silent_witness :
  exists w2,
    close_session "alice" "alice_140" (demo_process true 0) "10.0.0.7"
      (kill_terminal_session "alice_140" "10.0.0.7" alice session_world).1
    = (w2, inr tt)
    /\ terminated w2
       = terminated (kill_terminal_session "alice_140" "10.0.0.7" alice session_world).1
    /\ active_sessions w2
       = active_sessions (kill_terminal_session "alice_140" "10.0.0.7" alice session_world).1.
Proof.
  apply (close_after_kill_is_silent "alice_140" "10.0.0.7" alice session_world).
  - exact session_world_NoDup.
  - vm_compute. reflexivity.
Defined.

(** ** More about the job runner and the schedule registry *)





Lemma locate_script_unsafe host u script w w1 :
  get_user_dir host (username u) w = (w1, inr (user_dir_of host u)) ->
  is_safe_path (cwd host) (full_script_path_of host u script) (user_dir_of host u) = false ->
  locate_script host u script w = (w1, inl (HTTPException 403 "Access denied to this path")).
Proof.
  intros Hdir Hsafe. unfold locate_script. unfold bind at 1. rewrite Hdir.
  fold (user_dir_of host u). fold (full_script_path_of host u script).
  rewrite Hsafe. reflexivity.
Qed.

(** X7: a script path that the sandbox check rejects is answered with 403 by
    [run_script], [install_requirements], [schedule_script] and
    [create_virtual_environment] alike, before anything apart from the user's
    directory has been touched. *)
Theorem unsafe_script_is_refused_first host u script ip w w1 :
  get_user_dir host (username u) w = (w1, inr (user_dir_of host u)) ->
  is_safe_path (cwd host) (full_script_path_of host u script) (user_dir_of host u) = false ->
  (forall args timeout,
      run_script host script ip u args timeout w
      = (w1, inl (HTTPException 403 "Access denied to this path")))
  /\ (forall reqs,
      install_requirements host reqs ip u script w
      = (w1, inl (HTTPException 403 "Access denied to this path")))
  /\ (forall nm cron env,
      schedule_script host nm cron env ip u script w
      = (w1, inl (HTTPException 403 "Access denied to this path")))
  /\ create_virtual_environment host script ip u w
     = (w1, inl (HTTPException 403 "Access denied to this path")).
Proof.
  intros Hdir Hsafe.
  pose proof (locate_script_unsafe host u script w w1 Hdir Hsafe) as Hloc.
  repeat split; intros;
    [unfold run_script | unfold install_requirements | unfold schedule_script
     | unfold create_virtual_environment];
    unfold bind at 1; by rewrite Hloc.
Qed.

Lemma unsafe_script_is_refused_first_witness :
  (forall args timeout,
      run_script (demo_host true 0) "../../etc/passwd" "10.0.0.5" alice args timeout demo_world
      = (demo_world, inl (HTTPException 403 "Access denied to this path")))
  /\ (forall reqs,
      install_requirements (demo_host true 0) reqs "10.0.0.5" alice "../../etc/passwd" demo_world
      = (demo_world, inl (HTTPException 403 "Access denied to this path")))
  /\ (forall nm cron env,
      schedule_script (demo_host true 0) nm cron env "10.0.0.5" alice "../../etc/passwd" demo_world
      = (demo_world, inl (HTTPException 403 "Access denied to this path")))
  /\ create_virtual_environment (demo_host true 0) "../../etc/passwd" "10.0.0.5" alice demo_world
     = (demo_world, inl (HTTPException 403 "Access denied to this path")).
Proof.
  apply (unsafe_script_is_refused_first (demo_host true 0) alice "../../etc/passwd" "10.0.0.5" demo_world
           demo_world).
  - vm_compute. reflexivity.
  - vm_compute. reflexivity.
Defined.

(** X8: a cron expression that does not split into exactly five fields is
    answered with 400 before the wrapper is written or the table is read. *)
Theorem schedule_script_rejects_field_count host nm cron env ip u script w w1 located :
  locate_script host u script w = (w1, inr located) ->
  length (Py.split_ws cron) <> 5 ->
  schedule_script host nm cron env ip u script w
  = (w1, inl (HTTPException 400 cron_error)).
Proof.
  intros Hloc Hlen. unfold schedule_script. unfold bind at 1. rewrite Hloc.
  run_monad. apply Nat.eqb_neq in Hlen. by rewrite Hlen.
Qed.

Lemma schedule_script_rejects_field_count_witness :
  schedule_script (demo_host true 0) "nightly" "0 3 * *" [] "10.0.0.5" alice "job.py" demo_world
  = (demo_world, inl (HTTPException 400 cron_error)).
Proof.
  apply (schedule_script_rejects_field_count (demo_host true 0) "nightly" "0 3 * *" [] "10.0.0.5" alice
           "job.py" demo_world demo_world ("/home/alice", "/home/alice/job.py")).
  - vm_compute. reflexivity.
  - vm_compute. discriminate.
Defined.

Lemma schedule_script_success host nm cron env ip u script w w' resp :
  schedule_script host nm cron env ip u script w = (w', inr resp) ->
  length (Py.split_ws cron) = 5
  /\ posix host = true
  /\ crontab w' = Some (Py.join LF (kept_lines nm (crontab w)
                                     ++ [cron_entry cron (wrapper_path_of host u script) nm])).
Proof.
  intros Hrun.
  pose proof (schedule_script_effect host nm cron env ip u script w) as E.
  rewrite Hrun in E. split; [|split; [|exact E]]; clear E; revert Hrun;
  unfold schedule_script, locate_script, get_user_dir, makedirs, write_file,
    read_crontab, install_crontab, log_activity; run_monad; intros Hrun;
  repeat (case_match; simplify_eq/=; try done);
  solve [ by apply Nat.eqb_eq, negb_false_iff | by apply negb_false_iff ].
Qed.

(** X9: when [crontab] refuses the new table, [schedule_script] answers 500
    with the diagnostic of [crontab] passed on unwrapped, the table and the
    activity log stay as they were, and the wrapper that was written first
    stays on disk. *)
Theorem refused_table_leaves_old_one host nm cron env ip u script w w1 located diagnostic :
  locate_script host u script w = (w1, inr located) ->
  length (Py.split_ws cron) = 5 ->
  posix host = true ->
  fs w1 !! path_key host (wrapper_path_of host u script) <> Some Dir ->
  crontab_refuses host
    (Py.join LF (kept_lines nm (crontab w1)
                 ++ [cron_entry cron (wrapper_path_of host u script) nm]))
    = Some diagnostic ->
  exists w2,
    schedule_script host nm cron env ip u script w
    = (w2, inl (HTTPException 500 ("Failed to install crontab: " +:+ diagnostic)))
    /\ crontab w2 = crontab w1
    /\ activity w2 = activity w1
    /\ is_Some (fs w2 !! path_key host (wrapper_path_of host u script)).
Proof.
  intros Hloc Hlen Hposix Hdir Hrefuse.
  unfold schedule_script. unfold bind at 1. rewrite Hloc.
  pose proof (locate_script_spec _ _ _ _ _ _ Hloc) as ->. cbn [fst snd].
  fold (script_dir_of host u script). fold (wrapper_path_of host u script).
  unfold write_file, read_crontab, install_crontab. run_monad.
  apply Nat.eqb_eq in Hlen. rewrite Hlen, Hposix. cbn [negb].
  destruct (fs w1 !! path_key host (wrapper_path_of host u script)) as [[c|]|] eqn:Hw;
    [| done |]; simpl; unfold kept_lines in Hrefuse; simpl in Hrefuse;
    rewrite Hrefuse; simpl; eexists; (split; [reflexivity|]); simpl;
    rewrite lookup_insert_eq; eauto.
Qed.

Lemma refused_table_leaves_old_one_witness :
  exists w2,
    schedule_script broken_host "nightly" "0 3 * * *" [] "10.0.0.5" alice "job.py" demo_world
    = (w2, inl (HTTPException 500 "Failed to install crontab: bad minute"))
    /\ crontab w2 = crontab demo_world
    /\ activity w2 = activity demo_world
    /\ is_Some (fs w2 !! path_key broken_host (wrapper_path_of broken_host alice "job.py")).
Proof.
  apply (refused_table_leaves_old_one broken_host "nightly" "0 3 * * *" [] "10.0.0.5" alice
           "job.py" demo_world demo_world ("/home/alice", "/home/alice/job.py") "bad minute").
  - vm_compute. reflexivity.
  - reflexivity.
  - reflexivity.
  - vm_compute. discriminate.
  - reflexivity.
Defined.



Lemma unschedule_script_success host nm ip u w w' resp :
  unschedule_script host nm ip u w = (w', inr resp) ->
  posix host = true
  /\ crontab w' = Some (Py.join LF (kept_lines nm (crontab w))).
Proof.
  intros Hrun.
  pose proof (unschedule_script_effect host nm ip u w) as E.
  rewrite Hrun in E. destruct E as [_ E]. split; [|exact E].
  revert Hrun. unfold unschedule_script. run_monad.
  destruct (posix host); [done|]. simpl. discriminate.
Qed.



Lemma marked_lines_removed nm table :
  marked_lines nm (Some (Py.join LF (kept_lines nm table))) = [].
Proof.
  unfold marked_lines. simpl.
  destruct (splitlines_join (kept_lines nm table) (kept_lines_free _ _)) as [E|E].
  - rewrite E. apply marked_kept_nil.
  - pose proof (marked_kept_nil nm table) as H. rewrite E, List.filter_app in H.
    by apply app_eq_nil in H as [H _].
Qed.

Lemma unschedule_script_no_entry host nm ip u w table :
  posix host = true ->
  crontab w = Some table ->
  marked_lines nm (Some table) = [] ->
  unschedule_script host nm ip u w
  = (w, inl (HTTPException 404 ("No scheduled script with name '" +:+ nm +:+ "' found"))).
Proof.
  intros Hposix Htable Hnone.
  unfold unschedule_script. rewrite Hposix. run_monad. simpl. rewrite Htable.
  rewrite drop_marked_spec. simpl.
  unfold marked_lines in Hnone. simpl in Hnone.
  apply existsb_filter_nil in Hnone. by rewrite Hnone.
Qed.

(** X11: after a successful [unschedule_script] the same request made again
    ends in 404 and changes nothing. *)
Theorem remove_twice_not_found host nm ip u ip' u' w w1 resp :
  unschedule_script host nm ip u w = (w1, inr resp) ->
  unschedule_script host nm ip' u' w1
  = (w1, inl (HTTPException 404 ("No scheduled script with name '" +:+ nm +:+ "' found"))).
Proof.
  intros Hrm. apply unschedule_script_success in Hrm as (Hposix & E).
  eapply unschedule_script_no_entry; [done | exact E | apply marked_lines_removed].
Qed.

Lemma remove_twice_not_found_witness :
  unschedule_script (demo_host true 0) "nightly" "10.0.0.5" alice
    (run_ops (demo_host true 0) [nightly; Remove "nightly" "10.0.0.5" alice] demo_world)
  = (run_ops (demo_host true 0) [nightly; Remove "nightly" "10.0.0.5" alice] demo_world,
     inl (HTTPException 404 "No scheduled script with name 'nightly' found")).
Proof.
  eapply (remove_twice_not_found (demo_host true 0) "nightly" "10.0.0.5" alice "10.0.0.5" alice
            (run_op (demo_host true 0) nightly demo_world)).
  vm_compute. reflexivity.
Defined.

Lemma marker_unfold nm : marker nm = "# " +:+ nm +:+ marker_tail.
Proof. reflexivity. Qed.

Lemma linebreak_free_app a b :
  linebreak_free (a +:+ b) = linebreak_free a && linebreak_free b.
Proof.
  induction a as [|c a IH]; [done|]. rewrite app_String. simpl.
  by rewrite IH, andb_assoc.
Qed.

Lemma is_lf_linebreak c : Py.is_lf c = true -> Py.is_linebreak c = true.
Proof. unfold Py.is_lf, Py.is_linebreak. intros H%N.eqb_eq. by rewrite H. Qed.

Lemma upto_lf_free s : linebreak_free s = true -> upto_lf s = s.
Proof.
  induction s as [|c s IH]; [done|]. simpl. intros [Hc Hs]%andb_prop.
  destruct (Py.is_lf c) eqn:E.
  - apply is_lf_linebreak in E. by rewrite E in Hc.
  - by rewrite IH.
Qed.

Lemma before_last_tail nm : before_last marker_tail (nm +:+ marker_tail) = Some nm.
Proof.
  induction nm as [|c nm IH]; [reflexivity|].
  rewrite app_String. cbn [before_last]. by rewrite IH.
Qed.

Lemma prefix_cons_ne a p c s :
  a <> c -> String.prefix (String a p) (String c s) = false.
Proof. intros H. cbn [String.prefix]. by destruct (ascii_dec a c). Qed.

Lemma prefix_cons_eq a p s :
  String.prefix (String a p) (String a s) = String.prefix p s.
Proof. cbn [String.prefix]. by destruct (ascii_dec a a). Qed.

Lemma re_marker_entry pre nm :
  occurs "#" pre = false ->
  linebreak_free nm = true ->
  re_marker (pre +:+ marker nm) = Some nm.
Proof.
  intros Hpre Hnm. unfold re_marker.
  induction pre as [|c pre IH].
  - change ("" +:+ marker nm) with (String "#" (String " " (nm +:+ marker_tail))).
    cbn [re_search_between]. 
    replace (String.prefix "# " (String "#" (String " " (nm +:+ marker_tail)))) with true
      by (rewrite !prefix_cons_eq; by destruct (nm +:+ marker_tail)).
    change (Py.drop (String.length "# ") (String "#" (String " " (nm +:+ marker_tail))))
      with (nm +:+ marker_tail).
    rewrite upto_lf_free by (rewrite linebreak_free_app, Hnm; reflexivity).
    fold marker_tail. by rewrite before_last_tail.
  - simpl in Hpre. apply orb_false_elim in Hpre as [Hc Hpre].
    rewrite app_String. cbn [re_search_between].
    rewrite prefix_cons_ne; [by apply IH|].
    intros <-. by rewrite Ascii.eqb_refl in Hc.
Qed.

Lemma words_aux_app_space cur a b :
  Py.words_aux cur (a +:+ String " " b) = Py.words_aux cur a ++ Py.words_aux "" b.
Proof.
  revert cur. induction a as [|c a IH]; intros cur.
  - change ("" +:+ String " " b) with (String " " b). simpl.
    by destruct (String.eqb cur "").
  - rewrite app_String. simpl. destruct (Py.is_space c).
    + destruct (String.eqb cur ""); by rewrite IH.
    + apply IH.
Qed.

Lemma occurs_app c a b : occurs c (a +:+ b) = occurs c a || occurs c b.
Proof.
  induction a as [|x a IH]; [done|]. rewrite app_String. simpl.
  by rewrite IH, orb_assoc.
Qed.

Lemma parse_entry_line host nm cron u script :
  length (Py.split_ws cron) = 5 ->
  occurs "#" (cron +:+ " " +:+ wrapper_path_of host u script) = false ->
  linebreak_free nm = true ->
  exists path,
    parse_line (entry_line host nm cron u script)
    = [ {| name := nm;
           cron_expression := Py.join " " (Py.split_ws cron);
           script_path := path |} ].
Proof.
  intros Hlen Hhash Hnm. unfold parse_line.
  assert (Epre : entry_line host nm cron u script
                 = (cron +:+ " " +:+ wrapper_path_of host u script +:+ " ") +:+ marker nm).
  { unfold entry_line. by rewrite !str_app_assoc. }
  assert (Hm : re_marker (entry_line host nm cron u script) = Some nm).
  { rewrite Epre. apply re_marker_entry; [|done].
    rewrite <- !str_app_assoc, occurs_app, !str_app_assoc, Hhash. reflexivity. }
  eexists. rewrite Hm. do 2 f_equal.
  unfold entry_line, Py.split_ws.
  change (cron +:+ " " +:+ wrapper_path_of host u script +:+ " " +:+ marker nm)
    with (cron +:+ String " " (wrapper_path_of host u script +:+ " " +:+ marker nm)).
  rewrite words_aux_app_space. fold (Py.split_ws cron).
  by rewrite take_app_length'.
Qed.

Lemma flat_map_snoc {A B} (f : A -> list B) l a :
  flat_map f (l ++ [a]) = flat_map f l ++ f a.
Proof. rewrite flat_map_app. simpl. by rewrite app_nil_r. Qed.

(** X12: an entry installed by [schedule_script], with no hash sign in its
    cron expression and wrapper path, is listed by [list_scheduled_scripts]
    under its name and with its cron expression, the fields of which are
    separated by single spaces. *)
Theorem listing_returns_name_and_cron host nm cron env ip u script ip' u' w w1 resp :
  schedule_script host nm cron env ip u script w = (w1, inr resp) ->
  occurs "#" (cron +:+ " " +:+ wrapper_path_of host u script) = false ->
  linebreak_free (entry_line host nm cron u script) = true ->
  exists w2 listing path,
    list_scheduled_scripts host ip' u' w1 = (w2, inr listing)
    /\ {| name := nm;
          cron_expression := Py.join " " (Py.split_ws cron);
          script_path := path |} ∈ listing.
Proof.
  intros Hup Hhash Hfree.
  apply schedule_script_success in Hup as (Hlen & Hposix & E).
  assert (Hnm : linebreak_free nm = true).
  { unfold entry_line in Hfree. rewrite marker_unfold in Hfree.
    rewrite !linebreak_free_app in Hfree.
    repeat (apply andb_prop in Hfree as [? Hfree]). done. }
  destruct (parse_entry_line host nm cron u script Hlen Hhash Hnm) as [path Hparse].
  assert (Hrun : exists w2,
             list_scheduled_scripts host ip' u' w1
             = (w2, inr (flat_map parse_line (Py.splitlines
                          (Py.join LF (kept_lines nm (crontab w)
                             ++ [cron_entry cron (wrapper_path_of host u script) nm])))))).
  { eexists. unfold list_scheduled_scripts, log_activity. run_monad.
    rewrite Hposix. simpl. rewrite E. simpl. reflexivity. }
  destruct Hrun as [w2 Hrun]. eexists w2, _, path. split; [exact Hrun|].
  rewrite splitlines_join_snoc by apply kept_lines_free.
  rewrite cron_entry_line, splitlines_one_lf by done.
  rewrite flat_map_snoc, Hparse. apply elem_of_app. right. apply elem_of_cons. by left.
Qed.

Lemma listing_returns_name_and_cron_witness :
  exists w2 listing path,
    list_scheduled_scripts (demo_host true 0) "10.0.0.5" alice (run_op (demo_host true 0) nightly demo_world)
    = (w2, inr listing)
    /\ {| name := "nightly";
          cron_expression := Py.join " " (Py.split_ws "0 3 * * *");
          script_path := path |} ∈ listing.
Proof.
  eapply (listing_returns_name_and_cron (demo_host true 0) "nightly" "0 3 * * *" [] "10.0.0.5" alice "job.py"
            "10.0.0.5" alice demo_world).
  - vm_compute. reflexivity.
  - vm_compute. reflexivity.
  - vm_compute. reflexivity.
Defined.

Lemma prefix_empty s : String.prefix "" s = true.
Proof. by destruct s. Qed.

Lemma before_last_prefix b s g :
  before_last b s = Some g -> String.prefix (g +:+ b) s = true.
Proof.
  revert g. induction s as [|c r IH]; intros g; cbn [before_last].
  - destruct (String.prefix b "") eqn:E; [|done]. by intros [= <-].
  - destruct (before_last b r) as [g'|].
    + intros [= <-]. rewrite app_String, prefix_cons_eq. by apply IH.
    + destruct (String.prefix b (String c r)) eqn:E; [|done]. by intros [= <-].
Qed.

Lemma prefix_upto_lf x s :
  String.prefix x (upto_lf s) = true -> String.prefix x s = true.
Proof.
  revert x. induction s as [|c r IH]; intros x; [done|].
  destruct x as [|a x]; [done|]. cbn [upto_lf].
  destruct (Py.is_lf c); [done|].
  cbn [String.prefix]. destruct (ascii_dec a c); [apply IH|done].
Qed.

Lemma prefix_split a s :
  String.prefix a s = true -> s = a +:+ Py.drop (String.length a) s.
Proof.
  revert s. induction a as [|x a IH]; intros s; [done|].
  destruct s as [|c s]; [done|]. cbn [String.prefix].
  destruct (ascii_dec x c) as [->|]; [|done].
  intros H. rewrite app_String. simpl. f_equal. by apply IH.
Qed.

Lemma prefix_app_same a x t : String.prefix (a +:+ x) (a +:+ t) = String.prefix x t.
Proof.
  induction a as [|c a IH]; [done|]. by rewrite !app_String, prefix_cons_eq.
Qed.

Lemma re_search_between_occurrence a b s g :
  re_search_between a b s = Some g -> Py.contains (a +:+ g +:+ b) s = true.
Proof.
  assert (Hhere : forall s,
             String.prefix a s = true ->
             before_last b (upto_lf (Py.drop (String.length a) s)) = Some g ->
             Py.contains (a +:+ g +:+ b) s = true).
  { intros s' Hp Hb. apply contains_prefix.
    apply before_last_prefix, prefix_upto_lf in Hb.
    rewrite (prefix_split a s' Hp). by rewrite prefix_app_same. }
  induction s as [|c s IH]; cbn [re_search_between].
  - destruct (String.prefix a "") eqn:Hp; [|done].
    destruct (before_last b _) eqn:Hb; [|done]. intros [= ->]. by apply Hhere.
  - destruct (String.prefix a (String c s)) eqn:Hp.
    + destruct (before_last b _) eqn:Hb.
      * intros [= ->]. by apply Hhere.
      * intros H. rewrite contains_unfold, IH by done. apply orb_true_r.
    + intros H. rewrite contains_unfold, IH by done. apply orb_true_r.
Qed.

Lemma parse_line_marked line r :
  r ∈ parse_line line -> Py.contains (marker (name r)) line = true.
Proof.
  unfold parse_line. destruct (re_marker line) as [n|] eqn:E.
  - intros ->%list_elem_of_singleton. simpl.
    by apply re_search_between_occurrence in E.
  - by intros ?%elem_of_nil.
Qed.

(** X13: every record that [list_scheduled_scripts] returns stems from a line
    of the table that contains the marker of the record's name; lines without
    a marker are never listed. *)
Theorem listing_names_come_from_table host ip u w w' listing r :
  list_scheduled_scripts host ip u w = (w', inr listing) ->
  r ∈ listing ->
  exists line,
    line ∈ Py.splitlines (default "" (crontab w))
    /\ Py.contains (marker (name r)) line = true.
Proof.
  unfold list_scheduled_scripts, log_activity. run_monad. intros Hrun Hin.
  repeat (case_match; simplify_eq/=; try done).
  - apply list_elem_of_In, in_flat_map in Hin as (line & Hline & Hr).
    exists line. match goal with H : crontab _ = _ |- _ => rewrite H end. simpl.
    split; [by apply list_elem_of_In|].
    by apply parse_line_marked, list_elem_of_In.
  - by apply elem_of_nil in Hin.
Qed.

Lemma listing_names_come_from_table_witness :
  exists line,
    line ∈ Py.splitlines (default "" (crontab (run_op (demo_host true 0) nightly demo_world)))
    /\ Py.contains (marker "nightly") line = true.
Proof.
  eapply (listing_names_come_from_table (demo_host true 0) "10.0.0.5" alice (run_op (demo_host true 0) nightly demo_world) _ _
            {| name := "nightly"; cron_expression := "0 3 * * *"; script_path := "Unknown" |}).
  - vm_compute. reflexivity.
  - apply elem_of_cons. by left.
Defined.

(** X14: without an environment beside the script, [install_requirements]
    answers 400 and writes no manifest. *)
Theorem install_needs_environment host reqs ip u script w w1 located :
  locate_script host u script w = (w1, inr located) ->
  path_exists host (venv_path_of host u script) w1 = false ->
  install_requirements host reqs ip u script w
  = (w1, inl (HTTPException 400 "Virtual environment not found. Please create it first.")).
Proof.
  intros Hloc Hvenv. unfold install_requirements. unfold bind at 1. rewrite Hloc.
  pose proof (locate_script_spec _ _ _ _ _ _ Hloc) as ->. cbn [snd].
  fold (script_dir_of host u script). fold (venv_path_of host u script).
  run_monad. by rewrite Hvenv.
Qed.

Lemma install_needs_environment_witness :
  install_requirements (demo_host true 0) ["flask"] "10.0.0.5" alice "job.py" bare_world
  = (bare_world,
     inl (HTTPException 400 "Virtual environment not found. Please create it first.")).
Proof.
  apply (install_needs_environment (demo_host true 0) ["flask"] "10.0.0.5" alice "job.py" bare_world
           bare_world ("/home/alice", "/home/alice/job.py")).
  - vm_compute. reflexivity.
  - vm_compute. reflexivity.
Defined.

(** X15: when [install_requirements] succeeds, the installer has exited with
    code zero, the answer carries its decoded output and the requested
    packages, and the manifest on disk holds those packages, one per line. *)
Theorem install_success_matches_manifest host reqs ip u script w w' resp :
  install_requirements host reqs ip u script w = (w', inr resp) ->
  inst_requirements resp = reqs
  /\ inst_script_path resp = script
  /\ fs w' !! path_key host (req_file_of host u script) = Some (File (Py.join LF reqs))
  /\ exists process,
       spawn host [pip_path_of host u script; "install"; "-r"; req_file_of host u script] ""
       = inr process
       /\ returncode process = 0%Z
       /\ decode (stdout process) = Some (inst_output resp).
Proof.
  intros Hrun. unfold install_requirements in Hrun. unfold bind at 1 in Hrun.
  destruct (locate_script host u script w) as [w1 [e|loc]] eqn:Hloc; [done|].
  apply locate_script_spec in Hloc. subst loc. cbn [snd] in Hrun.
  fold (script_dir_of host u script) in Hrun.
  fold (req_file_of host u script) in Hrun.
  fold (pip_path_of host u script) in Hrun.
  unfold write_file, log_activity in Hrun. run_monad.
  repeat (case_match; simplify_eq/=; try done);
    unfold raise, ret in *; simplify_eq/=;
    (split; [done|]); (split; [done|]); (split; [by rewrite lookup_insert_eq|]);
    eexists; (split; [done|]);
    (split; [by apply Z.eqb_eq, negb_false_iff | done]).
Qed.

Lemma install_success_matches_manifest_witness :
  fs (install_requirements (demo_host true 0) ["flask"] "10.0.0.5" alice "job.py" demo_world).1
    !! path_key (demo_host true 0) (req_file_of (demo_host true 0) alice "job.py")
  = Some (File (Py.join LF ["flask"])).
Proof.
  eapply (install_success_matches_manifest (demo_host true 0) ["flask"] "10.0.0.5" alice "job.py" demo_world).
  vm_compute. reflexivity.
Defined.

(** X16: when an environment already exists beside the script,
    [create_virtual_environment] answers 400 and starts no process. *)
Theorem environment_is_created_once host script ip u w w1 located :
  locate_script host u script w = (w1, inr located) ->
  path_exists host (venv_path_of host u script) w1 = true ->
  create_virtual_environment host script ip u w
  = (w1, inl (HTTPException 400 "Virtual environment already exists for this script")).
Proof.
  intros Hloc Hvenv. unfold create_virtual_environment. unfold bind at 1. rewrite Hloc.
  pose proof (locate_script_spec _ _ _ _ _ _ Hloc) as ->. cbn [fst snd].
  fold (script_dir_of host u script). fold (venv_path_of host u script).
  run_monad. by rewrite Hvenv.
Qed.

Lemma environment_is_created_once_witness :
  create_virtual_environment (demo_host true 0) "job.py" "10.0.0.5" alice
    (create_virtual_environment (demo_host true 0) "job.py" "10.0.0.5" alice bare_world).1
  = ((create_virtual_environment (demo_host true 0) "job.py" "10.0.0.5" alice bare_world).1,
     inl (HTTPException 400 "Virtual environment already exists for this script")).
Proof.
  apply (environment_is_created_once (demo_host true 0) "job.py" "10.0.0.5" alice _ _
           ("/home/alice", "/home/alice/job.py")).
  - vm_compute. reflexivity.
  - vm_compute. reflexivity.
Defined.

(** X17: when the tool that creates the environment exits with a non-zero
    code, [create_virtual_environment] answers 500 with the error output of
    the tool, verbatim. *)
Theorem environment_failure_is_verbatim host script ip u w w1 located process :
  locate_script host u script w = (w1, inr located) ->
  path_exists host (venv_path_of host u script) w1 = false ->
  spawn host [sys_executable host; "-m"; "venv"; venv_path_of host u script] "" = inr process ->
  returncode process <> 0%Z ->
  create_virtual_environment host script ip u w
  = (w1, inl (HTTPException 500
                ("Failed to create virtual environment: " +:+ stderr process))).
Proof.
  intros Hloc Hvenv Hspawn Hrc. unfold create_virtual_environment.
  unfold bind at 1. rewrite Hloc.
  pose proof (locate_script_spec _ _ _ _ _ _ Hloc) as ->. cbn [fst snd].
  fold (script_dir_of host u script). fold (venv_path_of host u script).
  run_monad. rewrite Hvenv, Hspawn. simpl.
  apply Z.eqb_neq in Hrc. by rewrite Hrc.
Qed.

Lemma environment_failure_is_verbatim_witness :
  create_virtual_environment (demo_host true 1) "job.py" "10.0.0.5" alice bare_world
  = (bare_world, inl (HTTPException 500 "Failed to create virtual environment: boom")).
Proof.
  apply (environment_failure_is_verbatim (demo_host true 1) "job.py" "10.0.0.5" alice
           bare_world bare_world ("/home/alice", "/home/alice/job.py") (demo_process true 1)).
  - vm_compute. reflexivity.
  - vm_compute. reflexivity.
  - reflexivity.
  - discriminate.
Defined.

(** X18: a successful [upload_script] has a file name that ends in [.py] and
    leaves the uploaded bytes in the file of that name in the target
    directory. *)
Theorem upload_stores_python_files_only host file ip u path w w' resp :
  upload_script host file ip u path w = (w', inr resp) ->
  endswith (filename file) ".py" = true
  /\ fs w' !! path_key host
                (PosixPath.join (PosixPath.join (user_dir_of host u) path) (filename file))
     = Some (File (data file))
  /\ up_filename resp = filename file.
Proof.
  unfold upload_script, get_user_dir, makedirs, write_file, log_activity.
  fold (user_dir_of host u). run_monad. intros Hrun.
  repeat (case_match; simplify_eq/=; try done);
    (split; [by apply negb_false_iff|]); (split; [|done]);
    by rewrite lookup_insert_eq.
Qed.

Lemma upload_stores_python_files_only_witness :
  fs (upload_script (demo_host true 0) tool_upload "10.0.0.5" alice "" demo_world).1
    !! path_key (demo_host true 0)
         (PosixPath.join (PosixPath.join (user_dir_of (demo_host true 0) alice) "") "tool.py")
  = Some (File "print(2)").
Proof.
  eapply (upload_stores_python_files_only (demo_host true 0) tool_upload "10.0.0.5" alice ""
            demo_world).
  vm_compute. reflexivity.
Defined.

(** ** The file manager *)

Lemma beneath_self dir : beneath dir dir = true.
Proof. unfold beneath. by rewrite String.eqb_refl. Qed.

Lemma rmtree_lookup dir (m : gmap string node) k :
  filter (fun kv => beneath dir kv.1 = false) m !! k
  = if beneath dir k then None else m !! k.
Proof.
  rewrite map_lookup_filter. destruct (m !! k) as [x|]; simpl.
  - destruct (beneath dir k) eqn:E; case_guard; simpl in *; congruence.
  - by destruct (beneath dir k).
Qed.

Lemma get_user_dir_spec host nm w w1 r :
  get_user_dir host nm w = (w1, inr r) ->
  r = PosixPath.join (BASE_DIR host) nm
  /\ fs w1 !! path_key host r = Some Dir
  /\ (forall k, k <> path_key host r -> fs w1 !! k = fs w !! k)
  /\ get_user_dir host nm w1 = (w1, inr r).
Proof.
  intros Hrun.
  assert (H3 : r = PosixPath.join (BASE_DIR host) nm
               /\ fs w1 !! path_key host r = Some Dir
               /\ (forall k, k <> path_key host r -> fs w1 !! k = fs w !! k)).
  { revert Hrun. unfold get_user_dir, makedirs. run_monad. intros Hrun.
    repeat (case_match; simplify_eq/=; try done).
    rewrite lookup_insert_eq. repeat split; try done.
    intros k Hk. by rewrite lookup_insert_ne. }
  destruct H3 as (-> & Hdir & Hother). repeat split; try done.
  unfold get_user_dir, makedirs. run_monad. by rewrite Hdir.
Qed.

Lemma path_exists_alt host p w :
  path_exists host p w = match fs w !! path_key host p with Some _ => true | None => false end.
Proof.
  unfold path_exists. destruct (fs w !! path_key host p).
  - by rewrite bool_decide_eq_true_2.
  - rewrite bool_decide_eq_false_2; [done|]. by intros [? ?].
Qed.

Local Arguments path_exists : simpl never.
Local Arguments is_safe_path : simpl never.
Local Arguments path_key : simpl never.
Local Arguments PosixPath.join : simpl never.
Local Arguments user_dir_of : simpl never.
Local Arguments beneath : simpl never.

(** X19: after a successful [create_directory] the new directory exists, and
    the same request made again ends in 400. *)
Theorem directory_is_created_once host path nm ip u ip' w w1 resp :
  create_directory host path nm ip u w = (w1, inr resp) ->
  fs w1 !! path_key host (PosixPath.join (PosixPath.join (user_dir_of host u) path) nm)
    = Some Dir
  /\ create_directory host path nm ip' u w1
     = (w1, inl (HTTPException 400 "Directory already exists")).
Proof.
  intros Hrun. unfold create_directory in Hrun. unfold bind at 1 in Hrun.
  destruct (get_user_dir host (username u) w) as [wa [e|ud]] eqn:Hdir; [done|].
  apply get_user_dir_spec in Hdir as (-> & Hud & _ & _).
  fold (user_dir_of host u) in *.
  set (parent := PosixPath.join (user_dir_of host u) path) in *.
  set (new_dir := PosixPath.join parent nm) in *.
  unfold makedirs_new, log_activity, path_isdir in Hrun. run_monad.
  destruct (is_safe_path (cwd host) parent (user_dir_of host u)) eqn:Hsafe; [|done].
  cbn [negb] in Hrun. cbv beta iota in Hrun. rewrite !path_exists_alt in Hrun.
  revert Hrun.
  destruct (fs wa !! path_key host parent) as [[c|]|] eqn:Hparent;
    simpl; rewrite ?Hparent; try done.
  simpl. rewrite path_exists_alt.
  destruct (fs wa !! path_key host new_dir) as [n|] eqn:Hnew; [done|].
  simpl. rewrite Hnew. intros Hrun. injection Hrun as <- <-. simpl. rewrite lookup_insert_eq. split; [done|].
  assert (Hne1 : path_key host new_dir <> path_key host (user_dir_of host u))
    by congruence.
  assert (Hne2 : path_key host new_dir <> path_key host parent) by congruence.
  subst new_dir parent.
  unfold create_directory, get_user_dir, makedirs, path_isdir.
  fold (user_dir_of host u). run_monad.
  simpl. rewrite lookup_insert_ne, Hud by done. simpl. rewrite Hsafe. simpl.
  rewrite path_exists_alt. simpl. rewrite lookup_insert_ne, Hparent by done. simpl.
  rewrite lookup_insert_ne, Hparent by done. simpl.
  rewrite path_exists_alt. simpl. by rewrite lookup_insert_eq.
Qed.

Lemma directory_is_created_once_witness :
  fs (create_directory (demo_host true 0) "" "logs" "10.0.0.5" alice demo_world).1
    !! path_key (demo_host true 0) (PosixPath.join (PosixPath.join (user_dir_of (demo_host true 0) alice) "") "logs")
  = Some Dir
  /\ create_directory (demo_host true 0) "" "logs" "10.0.0.5" alice
       (create_directory (demo_host true 0) "" "logs" "10.0.0.5" alice demo_world).1
     = ((create_directory (demo_host true 0) "" "logs" "10.0.0.5" alice demo_world).1,
        inl (HTTPException 400 "Directory already exists")).
Proof.
  eapply (directory_is_created_once (demo_host true 0) "" "logs" "10.0.0.5" alice "10.0.0.5" demo_world).
  vm_compute. reflexivity.
Defined.

Lemma str_length_app (a b : string) :
  String.length (a +:+ b) = String.length a + String.length b.
Proof. induction a as [|c a IH]; [done|]. rewrite app_String. simpl. by rewrite IH. Qed.

Lemma str_app_length_id (a t : string) : a = a +:+ t -> t = "".
Proof.
  intros H. apply (f_equal String.length) in H. rewrite str_length_app in H.
  destruct t; [done|]. simpl in H. lia.
Qed.

Lemma home_not_beneath_item item home :
  Py.startswith item home = true -> item <> home -> beneath item home = false.
Proof.
  intros Hsafe Hne. unfold beneath.
  destruct (String.eqb_spec home item) as [->|_]; [done|]. simpl.
  destruct (Py.startswith home (if endswith item "/" then item else item +:+ "/")) eqn:E;
    [|done].
  exfalso. apply Hne.
  unfold Py.startswith in *.
  apply prefix_split in Hsafe. apply prefix_split in E.
  set (t' := Py.drop (String.length home) item) in *.
  set (e := if endswith item "/" then item else item +:+ "/") in *.
  set (t := Py.drop (String.length e) home) in *.
  assert (He : exists x, e = item +:+ x).
  { subst e. destruct (endswith item "/"); [exists ""; by rewrite app_empty_r | by eexists]. }
  destruct He as [x He].
  assert (Hlen : String.length t' = 0).
  { apply (f_equal String.length) in Hsafe, E. rewrite He in E.
    rewrite !str_length_app in *. lia. }
  destruct t'; [|done]. by rewrite app_empty_r in Hsafe.
Qed.

(** X20: after a successful [delete_item] nothing is left at the path, what
    lies neither at nor beneath it is untouched, and, unless the path is the
    user's directory itself, the same request made again ends in 404. *)
Theorem deleted_item_is_gone host path ip u ip' w w1 resp :
  delete_item host path ip u w = (w1, inr resp) ->
  fs w1 !! path_key host (PosixPath.join (user_dir_of host u) path) = None
  /\ (forall k,
        beneath (path_key host (PosixPath.join (user_dir_of host u) path)) k = false ->
        k <> path_key host (user_dir_of host u) ->
        fs w1 !! k = fs w !! k)
  /\ (path_key host (PosixPath.join (user_dir_of host u) path)
      <> path_key host (user_dir_of host u) ->
      delete_item host path ip' u w1 = (w1, inl (HTTPException 404 "Path not found"))).
Proof.
  intros Hrun. unfold delete_item in Hrun. unfold bind at 1 in Hrun.
  destruct (get_user_dir host (username u) w) as [wa [e|ud]] eqn:Hdir; [done|].
  apply get_user_dir_spec in Hdir as (-> & Hud & Hother & _).
  fold (user_dir_of host u) in *.
  set (item := PosixPath.join (user_dir_of host u) path) in *.
  unfold rmtree, remove_file, log_activity, path_isdir in Hrun. run_monad.
  destruct (is_safe_path (cwd host) item (user_dir_of host u)) eqn:Hsafe; [|done].
  revert Hrun. simpl. rewrite path_exists_alt.
  destruct (fs wa !! path_key host item) as [n|] eqn:Hitem; [|done]. simpl.
  rewrite Hitem.
  assert (Hcases :
    forall m : gmap string node,
      m !! path_key host item = None ->
      (forall k, beneath (path_key host item) k = false -> m !! k = fs wa !! k) ->
      fs w1 = m ->
      fs w1 !! path_key host item = None
      /\ (forall k, beneath (path_key host item) k = false ->
            k <> path_key host (user_dir_of host u) -> fs w1 !! k = fs w !! k)
      /\ (path_key host item <> path_key host (user_dir_of host u) ->
          delete_item host path ip' u w1 = (w1, inl (HTTPException 404 "Path not found")))).
  { intros m Hgone Hframe Hm. rewrite Hm. split; [done|]. split.
    - intros k Hk Hne. rewrite Hframe by done. by apply Hother.
    - intros Hne.
      assert (Hhome : fs w1 !! path_key host (user_dir_of host u) = Some Dir).
      { rewrite Hm, Hframe; [done|].
        apply home_not_beneath_item; [exact Hsafe | done]. }
      unfold delete_item, get_user_dir, makedirs. fold (user_dir_of host u).
      run_monad. simpl. rewrite Hhome. simpl. fold item. rewrite Hsafe. simpl.
      rewrite path_exists_alt, Hm, Hgone. done. }
  destruct n as [c|]; simpl; intros [= <- <-]; simpl.
  - apply (Hcases (delete (path_key host item) (fs wa))); [apply lookup_delete_eq| |done].
    intros k Hk. apply lookup_delete_ne. intros <-. by rewrite beneath_self in Hk.
  - apply (Hcases (filter (fun kv => beneath (path_key host item) kv.1 = false) (fs wa)));
      [| |done].
    + by rewrite rmtree_lookup, beneath_self.
    + intros k Hk. by rewrite rmtree_lookup, Hk.
Qed.

Lemma deleted_item_is_gone_witness :
  delete_item (demo_host true 0) ".venv" "10.0.0.5" alice
    (delete_item (demo_host true 0) ".venv" "10.0.0.5" alice demo_world).1
  = ((delete_item (demo_host true 0) ".venv" "10.0.0.5" alice demo_world).1,
     inl (HTTPException 404 "Path not found")).
Proof.
  edestruct (deleted_item_is_gone (demo_host true 0) ".venv" "10.0.0.5" alice "10.0.0.5"
               demo_world) as (_ & _ & Hagain).
  - vm_compute. reflexivity.
  - apply Hagain. vm_compute. discriminate.
Defined.

